(** * Pyvolt: the flag sets of [pyvolt/models/flags.py] and the HTTP client
      of [pyvolt/http.py], embedded as Rocq functions.

    Python objects are modelled by the data they hold: a JSON document is a
    [pyval], a raised exception is the [Raise] side of [result], an [int] is
    a [Z] (Python integers are unbounded, and [&], [|] and [~] are the
    two's-complement operations [Z.land], [Z.lor] and [Z.lnot]). *)

From Stdlib Require Import ZArith String Ascii List Lia Permutation PrimFloat.
From stdpp Require Import base option list gmap strings.

Set Warnings "-register-all,-inexact-float".

Local Open Scope string_scope.
Local Open Scope Z_scope.

(** ** Python values *)

(** What [json.loads] can return, which is also what the client passes
    around as [Any]. A [dict] keeps its insertion order. *)
Inductive pyval :=
| PNone
| PBool (b : bool)
| PInt (z : Z)
| PFloat (f : float)
| PStr (s : string)
| PList (l : list pyval)
| PDict (d : list (string * pyval)).

(** [bool(v)], the test of [if v:] and of [not v]. *)
Definition truthy (v : pyval) : bool :=
  match v with
  | PNone => false
  | PBool b => b
  | PInt z => negb (z =? 0)
  | PFloat f => negb (PrimFloat.eqb f 0%float)
  | PStr s => negb (String.eqb s "")
  | PList l => match l with [] => false | _ => true end
  | PDict d => match d with [] => false | _ => true end
  end.

(** [isinstance(v, str)] *)
Definition is_str (v : pyval) : bool :=
  match v with PStr _ => true | _ => false end.

(** Lookup in an insertion-ordered dictionary. *)
Fixpoint alist_get {A} (k : string) (d : list (string * A)) : option A :=
  match d with
  | [] => None
  | (k', a) :: d' => if String.eqb k k' then Some a else alist_get k d'
  end.

(** [d[k] = v]: an existing key keeps its place, a new key goes last. *)
Fixpoint alist_set {A} (k : string) (v : A) (d : list (string * A))
  : list (string * A) :=
  match d with
  | [] => [(k, v)]
  | (k', a) :: d' =>
      if String.eqb k k' then (k, v) :: d' else (k', a) :: alist_set k v d'
  end.

(** [repr] of a string that holds no quote, backslash or control character,
    as the names of keyword arguments do. *)
Definition py_repr (s : string) : string := "'" +:+ s +:+ "'".

(** ** Responses and exceptions *)

(** An [aiohttp.ClientResponse]: status line, header fields and the body as
    read by [response.text(encoding='utf-8')]. The header fields are a
    case-insensitive multidict; the model keys them by lower-cased name. *)
Record response := Response {
  status : Z;
  headers : gmap string string;
  text : string
}.

(** The exceptions the two modules raise or let through. *)
Inductive exn :=
| TypeError (msg : string)
| ValueError (msg : string)
| KeyError (key : string)
| AttributeError (msg : string)
| RuntimeError (msg : string)
| OSError (errno : option Z)
| HTTPException (r : response) (data : pyval)
| Forbidden (r : response) (data : pyval)
| NotFound (r : response) (data : pyval)
| RevoltServerError (r : response) (data : pyval)
| LoginFailure (msg : string) (cause : exn).

(** The outcome of a call: a value, or an exception on its way up. *)
Inductive result (A : Type) :=
| Ok (a : A)
| Raise (e : exn).
Arguments Ok {A} a.
Arguments Raise {A} e.

Definition rbind {A B} (r : result A) (k : A -> result B) : result B :=
  match r with
  | Ok a => k a
  | Raise e => Raise e
  end.

(** The exception class, which is what an [except] clause sees. *)
Inductive exn_class :=
| CTypeError | CValueError | CKeyError | CAttributeError | CRuntimeError
| COSError | CHTTPException | CForbidden | CNotFound | CRevoltServerError
| CLoginFailure.

Definition class_of (e : exn) : exn_class :=
  match e with
  | TypeError _ => CTypeError
  | ValueError _ => CValueError
  | KeyError _ => CKeyError
  | AttributeError _ => CAttributeError
  | RuntimeError _ => CRuntimeError
  | OSError _ => COSError
  | HTTPException _ _ => CHTTPException
  | Forbidden _ _ => CForbidden
  | NotFound _ _ => CNotFound
  | RevoltServerError _ _ => CRevoltServerError
  | LoginFailure _ _ => CLoginFailure
  end.

(** The class of the exception a call ended with, if it did. *)
Definition class_of_result {A} (r : result A) : option exn_class :=
  match r with
  | Ok _ => None
  | Raise e => Some (class_of e)
  end.

(** Modelled from the spec: [pyvolt/errors.py] is not among the sources.
    [HTTPException] is the base kind of the errors made from a failing
    response and its decoded body, with [Forbidden], [NotFound] and
    [RevoltServerError] under it; it carries the status code of the
    response. [LoginFailure] is not one of them. *)
Definition is_HTTPException (e : exn) : bool :=
  match e with
  | HTTPException _ _ | Forbidden _ _ | NotFound _ _
  | RevoltServerError _ _ => true
  | _ => false
  end.

(** [exc.status] *)
Definition exc_status (e : exn) : option Z :=
  match e with
  | HTTPException r _ | Forbidden r _ | NotFound r _
  | RevoltServerError r _ => Some (status r)
  | _ => None
  end.

(** * [pyvolt/models/flags.py] *)
Module Flags.

(** [flag_value]: the descriptor made from a function that returns the bit
    value ([self.flag = func(None)]). *)
Record flag_value := { flag : Z }.

(** An entry of a class [__dict__]: a [flag_value] or anything else
    ([__module__], [__doc__], a method). *)
Inductive attr :=
| AFlag (fv : flag_value)
| AOther.

(** A decorated flag-set class. *)
Record flag_class := {
  cls_name : string;
  cls_dict : list (string * attr);
  VALID_FLAGS : gmap string Z;
  DEFAULT_VALUE : Z
}.

(** The items of [cls.__dict__] that pass [isinstance(value, flag_value)]. *)
Definition declared (d : list (string * attr)) : list (string * Z) :=
  flat_map (fun '(name, a) =>
    match a with AFlag fv => [(name, flag fv)] | AOther => [] end) d.

(** The dict comprehension over those items, inserted in order. *)
Definition collect_flags (d : list (string * attr)) : gmap string Z :=
  foldl (fun m '(name, v) => <[name := v]> m) ∅ (declared d).

(** [max(values)], which raises [ValueError] on nothing. *)
Definition py_max (l : list Z) : result Z :=
  match l with
  | [] => Raise (ValueError "max() arg is an empty sequence")
  | x :: xs => Ok (foldl Z.max x xs)
  end.

(** [int.bit_length()]: the bits of the absolute value. *)
Definition bit_length (z : Z) : Z :=
  if Z.abs z =? 0 then 0 else Z.log2 (Z.abs z) + 1.

(** The class decorator [fill_with_flags(inverted=...)]. *)
Definition fill_with_flags (inverted : bool) (name : string)
    (d : list (string * attr)) : result flag_class :=
  let valid := collect_flags d in
  if inverted then
    rbind (py_max (map_to_list valid).*2) (fun m =>
      let max_bits := bit_length m in
      Ok {| cls_name := name; cls_dict := d; VALID_FLAGS := valid;
            DEFAULT_VALUE := -1 + 2 ^ max_bits |})
  else
    Ok {| cls_name := name; cls_dict := d; VALID_FLAGS := valid;
          DEFAULT_VALUE := 0 |}.

(** An instance: its class and its one slot, [value]. *)
Record BaseFlags := {
  ob_class : flag_class;
  value : Z
}.

Definition _from_value (cls : flag_class) (v : Z) : BaseFlags :=
  {| ob_class := cls; value := v |}.

Definition _has_flag (self : BaseFlags) (o : Z) : bool :=
  Z.land (value self) o =? o.

(** [toggle is True] and [toggle is False] hold of the two booleans only. *)
Definition _set_flag (self : BaseFlags) (o : Z) (toggle : pyval)
  : result BaseFlags :=
  match toggle with
  | PBool true =>
      Ok {| ob_class := ob_class self; value := Z.lor (value self) o |}
  | PBool false =>
      Ok {| ob_class := ob_class self;
            value := Z.land (value self) (Z.lnot o) |}
  | _ =>
      Raise (TypeError ("Value to set for " +:+ cls_name (ob_class self)
                        +:+ " must be a bool."))
  end.

(** [flag_value.__get__] on an instance and [flag_value.__set__]. *)
Definition flag_get (fv : flag_value) (instance : BaseFlags) : bool :=
  _has_flag instance (flag fv).

Definition flag_set (fv : flag_value) (instance : BaseFlags) (v : pyval)
  : result BaseFlags :=
  _set_flag instance (flag fv) v.

(** Reading and writing a declared flag by name goes through the descriptor
    found in the class [__dict__]. Other names are outside the model: a name
    that is no descriptor is answered with [AttributeError], which
    [__init__] never reaches, as it only passes on the names of
    [VALID_FLAGS]. *)
Definition getattr (self : BaseFlags) (name : string) : result bool :=
  match alist_get name (cls_dict (ob_class self)) with
  | Some (AFlag fv) => Ok (flag_get fv self)
  | _ => Raise (AttributeError name)
  end.

Definition setattr (self : BaseFlags) (name : string) (v : pyval)
  : result BaseFlags :=
  match alist_get name (cls_dict (ob_class self)) with
  | Some (AFlag fv) => flag_set fv self v
  | _ => Raise (AttributeError name)
  end.

(** The loop of [BaseFlags.__init__] over [kwargs.items()]. *)
Fixpoint init_loop (kwargs : list (string * pyval)) (self : BaseFlags)
  : result BaseFlags :=
  match kwargs with
  | [] => Ok self
  | (key, v) :: rest =>
      match VALID_FLAGS (ob_class self) !! key with
      | None => Raise (TypeError (py_repr key +:+ " is not a valid flag name."))
      | Some _ => rbind (setattr self key v) (init_loop rest)
      end
  end.

Definition __init__ (cls : flag_class) (kwargs : list (string * pyval))
  : result BaseFlags :=
  init_loop kwargs {| ob_class := cls; value := DEFAULT_VALUE cls |}.

(** [isinstance(other, self.__class__) and self.value == other.value];
    classes are told apart by name, there is no subclass of a flag set. *)
Definition __eq__ (self other : BaseFlags) : bool :=
  String.eqb (cls_name (ob_class other)) (cls_name (ob_class self))
  && (value self =? value other).

Definition __ne__ (self other : BaseFlags) : bool := negb (__eq__ self other).

Definition __iter__ (self : BaseFlags) : list (string * bool) :=
  flat_map (fun '(name, a) =>
    match a with
    | AFlag fv => [(name, _has_flag self (flag fv))]
    | AOther => []
    end) (cls_dict (ob_class self)).

(** The body of [class UserBadges], in declaration order. *)
Definition UserBadges_dict : list (string * attr) :=
  [ ("__module__", AOther);
    ("__doc__", AOther);
    ("developer", AFlag {| flag := Z.shiftl 1 0 |});
    ("translator", AFlag {| flag := Z.shiftl 1 1 |});
    ("supporter", AFlag {| flag := Z.shiftl 1 2 |});
    ("responsible_disclosure", AFlag {| flag := Z.shiftl 1 3 |});
    ("founder", AFlag {| flag := Z.shiftl 1 4 |});
    ("platform_moderation", AFlag {| flag := Z.shiftl 1 5 |});
    ("active_supporter", AFlag {| flag := Z.shiftl 1 6 |});
    ("paw", AFlag {| flag := Z.shiftl 1 7 |});
    ("early_adopter", AFlag {| flag := Z.shiftl 1 8 |});
    ("reserved_relevant_joke_badge_1", AFlag {| flag := Z.shiftl 1 9 |}) ].

(** [@fill_with_flags() class UserBadges(BaseFlags)] *)
Definition UserBadges : flag_class :=
  {| cls_name := "UserBadges";
     cls_dict := UserBadges_dict;
     VALID_FLAGS := collect_flags UserBadges_dict;
     DEFAULT_VALUE := 0 |}.

(** [VALID_FLAGS] holds the declared names with their bit values, and
    nothing else. *)
Definition exactly_declared (cls : flag_class) (d : list (string * attr))
  : Prop :=
  forall name z,
    VALID_FLAGS cls !! name = Some z <-> (name, AFlag {| flag := z |}) ∈ d.

(** [top] is the largest bit value declared in [d]. *)
Definition largest_declared (d : list (string * attr)) (top : Z) : Prop :=
  (exists name, (name, AFlag {| flag := top |}) ∈ d) /\
  (forall name fv, (name, AFlag fv) ∈ d -> flag fv <= top).

(** Every override names a declared flag and gives it a boolean. *)
Definition well_formed_kwargs (cls : flag_class)
    (kwargs : list (string * pyval)) : Prop :=
  Forall (fun kv => is_Some (VALID_FLAGS cls !! kv.1)
                    /\ exists b, kv.2 = PBool b) kwargs.

(** The descriptor of every name of [VALID_FLAGS] is found in the class
    [__dict__]. *)
Definition consistent (cls : flag_class) : Prop :=
  forall k z, VALID_FLAGS cls !! k = Some z ->
              alist_get k (cls_dict cls) = Some (AFlag {| flag := z |}).

(** A made-up inverted flag set with the bits 0 and 3: the default is 15.
    [UserBadges] is the set that is not inverted. *)
Definition inverted_dict : list (string * attr) :=
  [ ("__module__", AOther);
    ("read", AFlag {| flag := Z.shiftl 1 0 |});
    ("write", AFlag {| flag := Z.shiftl 1 3 |}) ].

(** The instance after [_set_flag(o, b)] with a boolean [b]. *)
Definition write (self : BaseFlags) (o : Z) (b : bool) : BaseFlags :=
  {| ob_class := ob_class self;
     value := if b then Z.lor (value self) o
              else Z.land (value self) (Z.lnot o) |}.

(** The pairs of [dict(self)], handed back to the class as keyword
    arguments. *)
Definition kwargs_of (self : BaseFlags) : list (string * pyval) :=
  map (fun '(name, b) => (name, PBool b)) (__iter__ self).

(** The instance [cls()] is built from. *)
Definition blank (cls : flag_class) : BaseFlags :=
  {| ob_class := cls; value := DEFAULT_VALUE cls |}.

(** Whether some declared flag has the bit [m]. *)
Definition declared_bit (d : list (string * attr)) (m : Z) : bool :=
  existsb (fun '(_, o) => Z.testbit o m) (declared d).

(** Every declared flag is one bit, [1 << p]. *)
Definition single_bits (d : list (string * attr)) : Prop :=
  forall n fv, (n, AFlag fv) ∈ d -> exists p, 0 <= p /\ flag fv = Z.shiftl 1 p.

End Flags.

(** * [pyvolt/http.py] *)
Module Http.

(** ** What the client calls in the Python runtime *)

(** [json.loads] ([None] when it raises [ValueError]), [json.dumps],
    [urllib.parse.quote], [str.format_map] and [str] of a number or of a
    container. *)
Class Runtime := {
  json_loads : string -> option pyval;
  json_dumps : pyval -> string;
  _uriquote : string -> string;
  format_map : string -> list (string * pyval) -> result string;
  str_other : pyval -> string
}.

(** [str(v)], as an f-string renders a field. *)
Definition py_str `{Runtime} (v : pyval) : string :=
  match v with
  | PStr s => s
  | PNone => "None"
  | PBool true => "True"
  | PBool false => "False"
  | _ => str_other v
  end.

(** [v[k]] with a string key. *)
Definition subscript (v : pyval) (k : string) : result pyval :=
  match v with
  | PDict d =>
      match alist_get k d with
      | Some x => Ok x
      | None => Raise (KeyError k)
      end
  | PList _ => Raise (TypeError "list indices must be integers or slices, not str")
  | PStr _ => Raise (TypeError "string indices must be integers")
  | _ => Raise (TypeError "object is not subscriptable")
  end.

(** [v.get(k, default)] *)
Definition py_get (v : pyval) (k : string) (dflt : pyval) : result pyval :=
  match v with
  | PDict d => Ok (default dflt (alist_get k d))
  | _ => Raise (AttributeError "get")
  end.

(** ** Data *)

Record Token := { type : string; value : string }.

Record File := { filename : string; fp : string }.

Record form_field := {
  ff_name : string;
  ff_value : string;
  ff_filename : option string
}.

(** The [data] keyword handed to aiohttp. *)
Inductive body :=
| NoBody
| JsonBody (s : string)
| FormBody (fields : list form_field).

(** What a run of the client does to the outside, in order. *)
Inductive event :=
| EvGateWait
| EvAcquire (bucket : string)
| EvRelease (bucket : string)
| EvRequest (method url : string) (hdrs : list (string * string)) (b : body)
| EvSleep (delay : pyval)
| EvGateClear
| EvGateSet.

(** How one exchange with the server ends: a response, or an [OSError]
    raised by the session. *)
Inductive outcome :=
| Responded (r : response)
| Failed (errno : option Z).

(** The client object, with the count of exchanges made and the events so
    far. One task runs at a time: a bucket lock is free when it is asked
    for, and its entry in the weak dictionary [_locks] lives from the
    acquisition to the release. *)
Record HTTPClient := {
  user_agent : string;
  token : option Token;
  api_info : pyval;
  _global_over : bool;
  sent : nat;
  trace : list event
}.

Definition set_token (t : option Token) (c : HTTPClient) : HTTPClient :=
  {| user_agent := user_agent c; token := t; api_info := api_info c;
     _global_over := _global_over c; sent := sent c; trace := trace c |}.

Definition set_api_info (a : pyval) (c : HTTPClient) : HTTPClient :=
  {| user_agent := user_agent c; token := token c; api_info := a;
     _global_over := _global_over c; sent := sent c; trace := trace c |}.

Definition set_global_over (b : bool) (c : HTTPClient) : HTTPClient :=
  {| user_agent := user_agent c; token := token c; api_info := api_info c;
     _global_over := b; sent := sent c; trace := trace c |}.

Definition log (e : event) (c : HTTPClient) : HTTPClient :=
  {| user_agent := user_agent c; token := token c; api_info := api_info c;
     _global_over := _global_over c; sent := sent c;
     trace := trace c ++ [e] |}.

Definition count_exchange (c : HTTPClient) : HTTPClient :=
  {| user_agent := user_agent c; token := token c; api_info := api_info c;
     _global_over := _global_over c; sent := S (sent c); trace := trace c |}.

(** [HTTPClient.__init__]: the gate starts open. *)
Definition HTTPClient_init (ua : string) : HTTPClient :=
  {| user_agent := ua; token := None; api_info := PNone;
     _global_over := true; sent := 0%nat; trace := [] |}.

(** ** The monad of client methods: state and exceptions *)

Definition M (A : Type) : Type := HTTPClient -> result A * HTTPClient.

Definition ret {A} (a : A) : M A := fun c => (Ok a, c).

Definition raise {A} (e : exn) : M A := fun c => (Raise e, c).

Definition bind {A B} (m : M A) (k : A -> M B) : M B :=
  fun c =>
    match m c with
    | (Ok a, c') => k a c'
    | (Raise e, c') => (Raise e, c')
    end.

Notation "x <- m ;; k" := (bind m (fun x => k))
  (at level 100, m at next level, right associativity).
Notation "m ;;; k" := (bind m (fun _ => k))
  (at level 100, right associativity).

Definition lift {A} (r : result A) : M A := fun c => (r, c).

Definition get : M HTTPClient := fun c => (Ok c, c).

Definition modify (f : HTTPClient -> HTTPClient) : M unit :=
  fun c => (Ok tt, f c).

Definition emit (e : event) : M unit := modify (log e).

Definition when (b : bool) (m : M unit) : M unit := if b then m else ret tt.

(** [try: body / except <handled> as e: handler e]: [handler] answers
    [None] for an exception its clause does not match. *)
Definition try_except {A} (m : M A) (handler : exn -> option (M A)) : M A :=
  fun c =>
    match m c with
    | (Ok a, c') => (Ok a, c')
    | (Raise e, c') =>
        match handler e with
        | Some h => h c'
        | None => (Raise e, c')
        end
    end.

(** [type(v).__name__] *)
Definition type_name (v : pyval) : string :=
  match v with
  | PNone => "NoneType"
  | PBool _ => "bool"
  | PInt _ => "int"
  | PFloat _ => "float"
  | PStr _ => "str"
  | PList _ => "list"
  | PDict _ => "dict"
  end.

(** The values that can be compared with an [int]: [int], [bool], which is
    an [int], and [float]. *)
Definition is_number (v : pyval) : bool :=
  match v with
  | PInt _ | PBool _ | PFloat _ => true
  | _ => false
  end.

(** A delay that [asyncio.sleep] waits out: a number that is neither a NaN
    nor an infinity. *)
Definition is_delay (v : pyval) : bool :=
  match v with
  | PInt _ | PBool _ => true
  | PFloat f => PrimFloat.is_finite f
  | _ => false
  end.

(** [await asyncio.sleep(delay)]. The coroutine starts with the test
    [delay <= 0], which raises [TypeError] when [delay] is not a number: a
    string, [None], a list or a dict. A float is taken to satisfy
    [is_delay]: on an infinity, and on a NaN before Python 3.13, the sleep
    never ends, which a model whose calls all end does not show. *)
Definition sleep (delay : pyval) : M unit :=
  if is_number delay then emit (EvSleep delay)
  else raise (TypeError ("'<=' not supported between instances of '"
                         +:+ type_name delay +:+ "' and 'int'")).

(** *** Reading a trace *)

(** The delays slept, in order. *)
Definition sleeps (evs : list event) : list pyval :=
  flat_map (fun e => match e with EvSleep d => [d] | _ => [] end) evs.

(** The number of requests sent. *)
Definition exchanges (evs : list event) : nat :=
  length (List.filter
            (fun e => match e with EvRequest _ _ _ _ => true | _ => false end)
            evs).

(** The statuses [request] retries without a condition. *)
Definition retried (s : Z) : Prop := s = 500 \/ s = 502 \/ s = 504.

(** The client keeps its credential, its service metadata and its
    user agent. *)
Definition same_login (c c' : HTTPClient) : Prop :=
  token c' = token c /\ api_info c' = api_info c
  /\ user_agent c' = user_agent c.

Section Client.
Context `{Runtime}.

(** The server and the network, as the answer to the n-th exchange. *)
Variable network : nat -> outcome.

(** [session.request(method, url, **kwargs)] *)
Definition session_request (method url : string)
    (hdrs : list (string * string)) (b : body) : M response :=
  emit (EvRequest method url hdrs b) ;;;
  c <- get ;;
  modify count_exchange ;;;
  match network (sent c) with
  | Responded r => ret r
  | Failed errno => raise (OSError errno)
  end.

(** [json_or_text]. The body is taken to be valid UTF-8, so that
    [response.text(encoding='utf-8')], which decodes strictly, returns the
    [text] of the response: a body that does not decode makes that call
    raise before the content type is looked at, a case the model of a
    response leaves out. A missing [content-type] is the [KeyError] the
    function swallows. *)
Definition json_or_text (r : response) : result pyval :=
  match headers r !! "content-type" with
  | Some ct =>
      if String.eqb ct "application/json" then
        match json_loads (text r) with
        | Some v => Ok v
        | None => Raise (ValueError "JSONDecodeError")
        end
      else Ok (PStr (text r))
  | None => Ok (PStr (text r))
  end.

(** *** Route *)

Record Route := {
  path : string;
  method : string;
  url : string;
  channel_id : pyval;
  server_id : pyval
}.

Definition BASE : string := "https://api.revolt.chat".

(** [dict.get(k)]: [None] for a missing key. *)
Definition parameters_get (k : string) (parameters : list (string * pyval))
  : pyval :=
  default PNone (alist_get k parameters).

Definition Route_init (method path : string)
    (parameters : list (string * pyval)) : result Route :=
  let url := BASE +:+ path in
  rbind
    (match parameters with
     | [] => Ok url
     | _ =>
         format_map url
           (map (fun '(k, v) =>
                   (k, match v with PStr s => PStr (_uriquote s) | _ => v end))
                parameters)
     end)
    (fun url =>
       Ok {| path := path; method := method; url := url;
             channel_id := parameters_get "channel_id" parameters;
             server_id := parameters_get "server_id" parameters |}).

Definition bucket (self : Route) : string :=
  py_str (channel_id self) +:+ ":" +:+ py_str (server_id self) +:+ ":"
  +:+ path self.

(** *** MaybeUnlock *)

Record MaybeUnlock := { lock : string; _unlock : bool }.

Definition MaybeUnlock_init (lock : string) : MaybeUnlock :=
  {| lock := lock; _unlock := true |}.

Definition defer (self : MaybeUnlock) : MaybeUnlock :=
  {| lock := lock self; _unlock := false |}.

Definition __exit__ (self : MaybeUnlock) : M unit :=
  when (_unlock self) (emit (EvRelease (lock self))).

(** [with MaybeUnlock(lock) as maybe_lock: body]: [__exit__] runs on every
    way out of the body. *)
Definition with_MaybeUnlock {A} (lock : string) (body : MaybeUnlock -> M A)
  : M A :=
  fun c =>
    let maybe_lock := MaybeUnlock_init lock in
    let '(r, c') := body maybe_lock c in
    let '(_, c'') := __exit__ maybe_lock c' in
    (r, c'').

(** *** HTTPClient.request *)

(** How one turn of the [for tries in range(5)] loop ends, when it does not
    raise: [return data], or on to the next turn with the [response] and
    [data] it leaves behind. *)
Inductive step :=
| Return (data : pyval)
| Next (last : option (response * pyval)).

Definition gate_clear : M unit :=
  emit EvGateClear ;;; modify (set_global_over false).

Definition gate_set : M unit :=
  emit EvGateSet ;;; modify (set_global_over true).

(** [not response.headers.get('Via')] *)
Definition no_via (r : response) : bool :=
  match headers r !! "via" with
  | Some v => String.eqb v ""
  | None => true
  end.

(** [e.errno in (54, 10054)] *)
Definition connection_reset (errno : option Z) : bool :=
  match errno with
  | Some n => (n =? 54) || (n =? 10054)
  | None => false
  end.

Definition attempt (method url : string) (hdrs : list (string * string))
    (b : body) (tries : Z) (last : option (response * pyval)) : M step :=
  try_except
    (response <- session_request method url hdrs b ;;
     data <- lift (json_or_text response) ;;
     if (status response <? 300) && (200 <=? status response) then
       ret (Return data)
     else if status response =? 429 then
       if no_via response || is_str data then
         raise (HTTPException response data)
       else
         retry_after <- lift (subscript data "retry_after") ;;
         is_global <- lift (py_get data "global" (PBool false)) ;;
         when (truthy is_global) gate_clear ;;;
         sleep retry_after ;;;
         when (truthy is_global) gate_set ;;;
         ret (Next (Some (response, data)))
     else if (status response =? 500) || (status response =? 502)
             || (status response =? 504) then
       sleep (PInt (1 + tries * 2)) ;;;
       ret (Next (Some (response, data)))
     else if status response =? 403 then raise (Forbidden response data)
     else if status response =? 404 then raise (NotFound response data)
     else if 500 <=? status response then
       raise (RevoltServerError response data)
     else raise (HTTPException response data))
    (fun e =>
       match e with
       | OSError errno =>
           Some (if (tries <? 4) && connection_reset errno then
                   sleep (PInt (1 + tries * 2)) ;;;
                   ret (Next last)
                 else raise e)
       | _ => None
       end).

(** [if form:] *)
Definition form_given (form : option (list form_field)) : bool :=
  match form with
  | Some (_ :: _) => true
  | _ => false
  end.

(** The loop, and what follows it once the turns are used up. *)
Fixpoint attempts (method url : string) (hdrs : list (string * string))
    (form : option (list form_field)) (b : body) (range : list Z)
    (last : option (response * pyval)) : M pyval :=
  match range with
  | [] =>
      match last with
      | Some (response, data) =>
          if 500 <=? status response then
            raise (RevoltServerError response data)
          else raise (HTTPException response data)
      | None => raise (RuntimeError "Unreachable code in HTTP handling")
      end
  | tries :: rest =>
      let b := if form_given form then FormBody (default [] form) else b in
      s <- attempt method url hdrs b tries last ;;
      match s with
      | Return data => ret data
      | Next last => attempts method url hdrs form b rest last
      end
  end.

Definition range5 : list Z := [0; 1; 2; 3; 4].

Definition request_headers (c : HTTPClient) (json : option pyval)
  : list (string * string) :=
  let headers := [("User-Agent", user_agent c)] in
  let headers :=
    match token c with
    | Some t => alist_set ("x-" +:+ type t +:+ "-token") (value t) headers
    | None => headers
    end in
  match json with
  | Some _ => alist_set "Content-Type" "application/json" headers
  | None => headers
  end.

Definition request (route : Route) (form : option (list form_field))
    (json : option pyval) : M pyval :=
  let bucket := bucket route in
  c <- get ;;
  let headers := request_headers c json in
  let data :=
    match json with
    | Some j => JsonBody (json_dumps j)
    | None => NoBody
    end in
  when (negb (_global_over c))
       (emit EvGateWait ;;; modify (set_global_over true)) ;;;
  emit (EvAcquire bucket) ;;;
  with_MaybeUnlock bucket (fun maybe_lock =>
    attempts (method route) (url route) headers form data range5 None).

(** *** HTTPClient.upload_file *)

Definition upload_file (file : File) (tag : string) : M pyval :=
  c <- get ;;
  features <- lift (subscript (api_info c) "features") ;;
  autumn <- lift (subscript features "autumn") ;;
  base <- lift (subscript autumn "url") ;;
  let url := py_str base +:+ "/" +:+ tag in
  let headers := [("User-Agent", user_agent c)] in
  let form :=
    [ {| ff_name := "file"; ff_value := fp file;
         ff_filename := Some (filename file) |} ] in
  response <- session_request "POST" url headers (FormBody form) ;;
  data <- lift (json_or_text response) ;;
  if status response =? 400 then raise (HTTPException response data)
  else if (500 <=? status response) && (status response <=? 600) then
    raise (RevoltServerError response data)
  else ret data.

(** *** Login *)

Definition get_api_info : M pyval :=
  r <- lift (Route_init "GET" "/" []) ;;
  request r None None.

(** [self.request(Route('GET', '/users/@me'))], the body of the [try]
    block of [static_login]. *)
Definition fetch_self : M pyval :=
  r <- lift (Route_init "GET" "/users/@me" []) ;;
  request r None None.

(** [exc.status == 401] *)
Definition unauthorized (exc : exn) : bool :=
  match exc_status exc with
  | Some s => s =? 401
  | None => false
  end.

(** The session that [static_login] opens first is the one the model
    always has. *)
Definition static_login (tok : Token) : M pyval :=
  info <- get_api_info ;;
  modify (set_api_info info) ;;;
  c <- get ;;
  let old_token := token c in
  modify (set_token (Some tok)) ;;;
  try_except fetch_self
    (fun exc =>
       if is_HTTPException exc then
         Some (modify (set_token old_token) ;;;
               if unauthorized exc then
                 raise (LoginFailure "Improper token has been passed." exc)
               else raise exc)
       else None).

(** *** Messages *)

(** [for _attachment in attachments: ... attachment_ids.append(data["id"])] *)
Fixpoint upload_each (attachments : list File) (attachment_ids : list pyval)
  : M (list pyval) :=
  match attachments with
  | [] => ret attachment_ids
  | _attachment :: rest =>
      data <- upload_file _attachment "attachments" ;;
      id <- lift (subscript data "id") ;;
      upload_each rest (attachment_ids ++ [id])
  end.

(** The payload [send_message] builds before it hands it to [request]. An
    argument left at [None] is [PNone], or [None] for a file. *)
Definition send_message_payload (content embed embeds : pyval)
    (attachment : option File) (attachments : option (list File))
    (replie replies masquerade : pyval) : M (list (string * pyval)) :=
  let payload : list (string * pyval) := [] in
  let payload :=
    if truthy content then alist_set "content" content payload else payload in
  let payload :=
    if truthy embed then alist_set "embeds" (PList [embed]) payload
    else payload in
  let payload :=
    if truthy embeds then alist_set "embeds" embeds payload else payload in
  payload <-
    match attachment with
    | Some f =>
        data <- upload_file f "attachments" ;;
        id <- lift (subscript data "id") ;;
        ret (alist_set "attachments" (PList [id]) payload)
    | None => ret payload
    end ;;
  payload <-
    match attachments with
    | Some (f :: fs) =>
        attachment_ids <- upload_each (f :: fs) [] ;;
        ret (alist_set "attachments" (PList attachment_ids) payload)
    | _ => ret payload
    end ;;
  let payload :=
    if truthy replie then alist_set "replies" (PList [replie]) payload
    else payload in
  let payload :=
    if truthy replies then alist_set "replies" replies payload else payload in
  let payload :=
    if truthy masquerade then alist_set "masquerade" masquerade payload
    else payload in
  ret payload.

Definition send_message (channel_id content embed embeds : pyval)
    (attachment : option File) (attachments : option (list File))
    (replie replies masquerade : pyval) : M pyval :=
  r <- lift (Route_init "POST" "/channels/{channel_id}/messages"
               [("channel_id", channel_id)]) ;;
  payload <- send_message_payload content embed embeds attachment attachments
               replie replies masquerade ;;
  request r None (Some (PDict payload)).

(** *** Words for the statements below *)

(** How a major parameter shows in the bucket key. *)
Definition major (k : string) (parameters : list (string * pyval)) : string :=
  match alist_get k parameters with
  | Some v => py_str v
  | None => "None"
  end.

(** The body that goes out with every turn of [request]. *)
Definition sent_body (form : option (list form_field)) (json : option pyval)
  : body :=
  if form_given form then FormBody (default [] form)
  else match json with
       | Some j => JsonBody (json_dumps j)
       | None => NoBody
       end.

(** The request [upload_file] makes for [file]. *)
Definition upload_event (c : HTTPClient) (base : pyval) (file : File)
    (tag : string) : event :=
  EvRequest "POST" (py_str base +:+ "/" +:+ tag)
    [("User-Agent", user_agent c)]
    (FormBody [ {| ff_name := "file"; ff_value := fp file;
                   ff_filename := Some (filename file) |} ]).

(** [c1] is the client once the single [attachment], if there is one, has
    been uploaded and its id read. *)
Definition singular_uploaded (attachment : option File) (c c1 : HTTPClient)
  : Prop :=
  match attachment with
  | Some f =>
      exists data id,
        upload_file f "attachments" c = (Ok data, c1)
        /\ subscript data "id" = Ok id
  | None => c1 = c
  end.

(** [ids] are the ids the file host returns for [files], uploaded one after
    the other and in their order, by a client that starts as [c] and ends
    as [c']. *)
Fixpoint uploaded_ids (files : list File) (c : HTTPClient) (ids : list pyval)
    (c' : HTTPClient) : Prop :=
  match files, ids with
  | [], [] => c' = c
  | f :: files', id :: ids' =>
      exists data c1,
        upload_file f "attachments" c = (Ok data, c1)
        /\ subscript data "id" = Ok id
        /\ uploaded_ids files' c1 ids' c'
  | _, _ => False
  end.

(** *** The other message endpoints *)

Definition edit_message_payload (content embed embeds : pyval)
  : list (string * pyval) :=
  let payload : list (string * pyval) := [] in
  let payload :=
    if truthy content then alist_set "content" content payload else payload in
  let payload :=
    if truthy embed then alist_set "embeds" (PList [embed]) payload
    else payload in
  if truthy embeds then alist_set "embeds" embeds payload else payload.

Definition edit_message (channel_id message_id content embed embeds : pyval)
  : M pyval :=
  r <- lift (Route_init "PATCH" "/channels/{channel_id}/messages/{message_id}"
               [("channel_id", channel_id); ("message_id", message_id)]) ;;
  request r None (Some (PDict (edit_message_payload content embed embeds))).

Definition delete_message (channel_id message_id : pyval) : M pyval :=
  r <- lift (Route_init "DELETE" "/channels/{channel_id}/messages/{message_id}"
               [("channel_id", channel_id); ("message_id", message_id)]) ;;
  request r None None.

Definition fetch_message (channel_id message_id : pyval) : M pyval :=
  r <- lift (Route_init "GET" "/channels/{channel_id}/messages/{message_id}"
               [("channel_id", channel_id); ("message_id", message_id)]) ;;
  request r None None.

(** [sort_value] is [sort.value], the value of the [SortType] member
    ([pyvolt/enums.py] is not among the sources); [str(include_users)] of a
    boolean is its name. *)
Definition fetch_messages_payload (sort_value limit before after nearby : pyval)
    (include_users : bool) : list (string * pyval) :=
  let payload : list (string * pyval) :=
    [ ("sort", sort_value);
      ("include_users", PStr (if include_users then "True" else "False")) ] in
  let payload :=
    if truthy limit then alist_set "limit" limit payload else payload in
  let payload :=
    if truthy before then alist_set "before" before payload else payload in
  let payload :=
    if truthy after then alist_set "after" after payload else payload in
  if truthy nearby then alist_set "nearby" nearby payload else payload.

Definition fetch_messages (channel_id sort_value limit before after nearby
    : pyval) (include_users : bool) : M pyval :=
  r <- lift (Route_init "GET" "/channels/{channel_id}/messages"
               [("channel_id", channel_id)]) ;;
  request r None
    (Some (PDict (fetch_messages_payload sort_value limit before after nearby
                    include_users))).

Definition poll_message_changes (channel_id message_ids : pyval) : M pyval :=
  r <- lift (Route_init "POST" "/channels/{channel_id}/messages/stale"
               [("channel_id", channel_id)]) ;;
  request r None (Some (PDict [("ids", message_ids)])).

Definition ack_message (channel_id message_id : pyval) : M pyval :=
  r <- lift (Route_init "PUT" "/channels/{channel_id}/ack/{message_id}"
               [("channel_id", channel_id); ("message_id", message_id)]) ;;
  request r None None.

(** *** More words for statements *)

(** What a turn of the loop does after its request: sleeps and moves of
    the gate. *)
Definition quiet (e : event) : bool :=
  match e with
  | EvSleep _ | EvGateClear | EvGateSet => true
  | _ => false
  end.

(** What the loop does: requests, sleeps and moves of the gate. *)
Definition turn_event (e : event) : bool :=
  match e with
  | EvRequest _ _ _ _ | EvSleep _ | EvGateClear | EvGateSet => true
  | _ => false
  end.

(** The last turn of a range is one that does not swallow an [OSError]. *)
Fixpoint closes (range : list Z) : bool :=
  match range with
  | [] => false
  | [tries] => 4 <=? tries
  | _ :: rest => closes rest
  end.

(** The error a response is turned into when it is neither a success, nor
    a rate limit, nor one of the statuses that are retried. *)
Definition error_of (r : response) (data : pyval) : exn :=
  if status r =? 403 then Forbidden r data
  else if status r =? 404 then NotFound r data
  else if 500 <=? status r then RevoltServerError r data
  else HTTPException r data.

(** The client after a turn that was answered with a transient server
    error, and after a turn whose connection was reset. *)
Definition after_retried (method url : string) (hdrs : list (string * string))
    (b : body) (tries : Z) (c : HTTPClient) : HTTPClient :=
  log (EvSleep (PInt (1 + tries * 2)))
      (count_exchange (log (EvRequest method url hdrs b) c)).

(** The client after a run of such turns. *)
Fixpoint after_turns (method url : string) (hdrs : list (string * string))
    (b : body) (turns : list Z) (c : HTTPClient) : HTTPClient :=
  match turns with
  | [] => c
  | tries :: rest =>
      after_turns method url hdrs b rest (after_retried method url hdrs b tries c)
  end.

(** An exchange that [request] answers with a sleep and another turn,
    before its last turn: a response with one of the retried statuses and
    a body that decodes, or a connection reset. *)
Definition transient (o : outcome) : Prop :=
  match o with
  | Responded r => retried (status r) /\ exists data, json_or_text r = Ok data
  | Failed errno => connection_reset errno = true
  end.

(** An exchange whose answer, when it is a rate limit of the service,
    names a delay that [asyncio.sleep] waits out. *)
Definition timed (o : outcome) : Prop :=
  match o with
  | Responded r =>
      status r = 429 ->
      forall data retry_after,
        json_or_text r = Ok data ->
        no_via r || is_str data = false ->
        subscript data "retry_after" = Ok retry_after ->
        is_delay retry_after = true
  | Failed _ => True
  end.

(** The backoff slept after each of the first [n] turns. *)
Definition backoff (n : nat) : list pyval :=
  map (fun tries => PInt (1 + tries * 2)) (firstn n range5).

(** A computation that leaves the credential and the metadata alone. *)
Definition keeps {A} (m : M A) : Prop := forall c, same_login c (m c).2.

End Client.
End Http.

(** * A runtime and servers to run the client against *)
Module Demo.
Import Http.

(** The documents the servers below send, written with single quotes. *)
Definition demo_loads (s : string) : option pyval :=
  if String.eqb s "{}" then Some (PDict [])
  else if String.eqb s "{'features': {'autumn': {'url': 'https://autumn.revolt.chat'}}}" then
    Some (PDict [("features",
                  PDict [("autumn",
                          PDict [("url", PStr "https://autumn.revolt.chat")])])])
  else if String.eqb s "{'retry_after': 0.5, 'global': true}" then
    Some (PDict [("retry_after", PFloat 0.5); ("global", PBool true)])
  else if String.eqb s "{'retry_after': 0.5}" then
    Some (PDict [("retry_after", PFloat 0.5)])
  else if String.eqb s "{'retry_after': 'soon', 'global': true}" then
    Some (PDict [("retry_after", PStr "soon"); ("global", PBool true)])
  else if String.eqb s "{'id': 'a'}" then Some (PDict [("id", PStr "a")])
  else if String.eqb s "{'id': 'b'}" then Some (PDict [("id", PStr "b")])
  else if String.eqb s "{'id': 'c'}" then Some (PDict [("id", PStr "c")])
  else if String.eqb s "{'_id': 'U'}" then Some (PDict [("_id", PStr "U")])
  else None.

Definition demo_str (v : pyval) : string :=
  match v with
  | PStr s => s
  | PNone => "None"
  | _ => "?"
  end.

(** Replacement of the [{name}] fields of a template. [field] is the name
    being read, once a brace has been opened. *)
Fixpoint subst_fields (params : list (string * pyval)) (s : string)
    (field : option string) : result string :=
  match s with
  | EmptyString =>
      match field with
      | None => Ok EmptyString
      | Some _ => Raise (ValueError "expected '}' before end of string")
      end
  | String c s' =>
      match field with
      | None =>
          if Ascii.eqb c "{" then subst_fields params s' (Some EmptyString)
          else rbind (subst_fields params s' None) (fun t => Ok (String c t))
      | Some name =>
          if Ascii.eqb c "}" then
            match alist_get name params with
            | Some v =>
                rbind (subst_fields params s' None)
                      (fun t => Ok (demo_str v +:+ t))
            | None => Raise (KeyError name)
            end
          else subst_fields params s' (Some (name +:+ String c EmptyString))
      end
  end.

#[export] Instance demo_runtime : Runtime := {|
  json_loads := demo_loads;
  json_dumps := fun _ => "{...}";
  _uriquote := fun s => s;
  format_map := fun s params => subst_fields params s None;
  str_other := fun _ => "?"
|}.

Definition json_response (st : Z) (body : string) : response :=
  {| status := st;
     headers := {[ "content-type" := "application/json" ]};
     text := body |}.

Definition proxied_json_response (st : Z) (body : string) : response :=
  {| status := st;
     headers := {[ "content-type" := "application/json";
                   "via" := "1.1 google" ]};
     text := body |}.

Definition text_response (st : Z) (body : string) : response :=
  {| status := st; headers := ∅; text := body |}.

(** A server that answers every request with [502 Bad Gateway]. *)
Definition bad_gateway : nat -> outcome :=
  fun _ => Responded (text_response 502 "Bad Gateway").

(** A server that answers the n-th request with the n-th response of a
    list, and with an empty [200] after that. *)
Definition script (l : list response) : nat -> outcome :=
  fun n => Responded (nth n l (json_response 200 "{}")).

Definition old_token : Token := {| type := "bot"; value := "old" |}.
Definition new_token : Token := {| type := "bot"; value := "new" |}.

Definition fresh : HTTPClient := HTTPClient_init "Pyvolt".

(** A client that has logged in with [old_token]. *)
Definition logged_in : HTTPClient :=
  set_api_info
    (PDict [("features",
             PDict [("autumn",
                     PDict [("url", PStr "https://autumn.revolt.chat")])])])
    (set_token (Some old_token) fresh).

Definition api_info_text : string :=
  "{'features': {'autumn': {'url': 'https://autumn.revolt.chat'}}}".

Definition root : Route :=
  {| path := "/"; method := "GET"; url := "https://api.revolt.chat/";
     channel_id := PNone; server_id := PNone |}.



(** A global rate limit that names no number of seconds. *)
Definition rate_limit_soon : response :=
  proxied_json_response 429 "{'retry_after': 'soon', 'global': true}".

(** A client that holds [old_token] and has not fetched the metadata. *)
Definition returning : HTTPClient := set_token (Some old_token) fresh.

Definition unauthorized_server : nat -> outcome :=
  script [json_response 200 api_info_text; text_response 401 "Unauthorized"].

Definition bad_request_server : nat -> outcome :=
  script [json_response 200 api_info_text; text_response 400 "Bad Request"].

Definition unreachable_server : nat -> outcome :=
  fun n =>
    match n with
    | O => Responded (json_response 200 api_info_text)
    | _ => Failed (Some 111)
    end.

Definition picture (name : string) : File :=
  {| filename := name; fp := "bytes" |}.

Definition file_host (ids : list string) : nat -> outcome :=
  script (map (fun id => json_response 200 ("{'id': '" +:+ id +:+ "'}")) ids).

Definition one : pyval := PDict [("title", PStr "one")].
Definition two : pyval := PDict [("title", PStr "two")].

(** A server whose first [n] connections are reset by the peer, and that
    answers with [o] after that. *)
Definition reset_then (n : nat) (o : outcome) : nat -> outcome :=
  fun i => if (i <? n)%nat then Failed (Some 54) else o.

(** A host that refuses every connection. *)
Definition refusing : nat -> outcome := fun _ => Failed (Some 111).

(** A server that accepts the login of [new_token]. *)
Definition welcoming : nat -> outcome :=
  script [json_response 200 api_info_text; json_response 200 "{'_id': 'U'}"].

End Demo.

(** * Facts about the flag sets *)
Module FlagsFacts.
Import Flags.

Example UserBadges_decorated :
  fill_with_flags false "UserBadges" UserBadges_dict = Ok UserBadges.
Proof. reflexivity. Qed.

(** ** Bits *)

Lemma shiftl_1_nonzero p : 0 <= p -> Z.shiftl 1 p <> 0.
Proof.
  intros Hp. rewrite Z.shiftl_1_l.
  pose proof (Z.pow_pos_nonneg 2 p). lia.
Qed.

Lemma testbit_shiftl_1 p n : 0 <= p -> Z.testbit (Z.shiftl 1 p) n = (p =? n).
Proof. intros Hp. rewrite Z.shiftl_1_l. apply Z.pow2_bits_eqb, Hp. Qed.

(** A single-bit flag is held exactly when its bit is on. *)
Lemma has_flag_testbit self p :
  0 <= p -> _has_flag self (Z.shiftl 1 p) = Z.testbit (value self) p.
Proof.
  intros Hp. unfold _has_flag.
  destruct (Z.testbit (value self) p) eqn:Hb.
  - apply Z.eqb_eq, Z.bits_inj'. intros n Hn.
    rewrite Z.land_spec, testbit_shiftl_1 by assumption.
    destruct (Z.eqb_spec p n) as [->|]; [rewrite Hb; reflexivity|].
    apply andb_false_r.
  - apply Z.eqb_neq. intros Heq.
    assert (Hp' : Z.testbit (Z.land (value self) (Z.shiftl 1 p)) p = true).
    { rewrite Heq, testbit_shiftl_1, Z.eqb_refl by assumption. reflexivity. }
    rewrite Z.land_spec, Hb in Hp'. discriminate.
Qed.

Lemma testbit_set self o b self' n :
  _set_flag self o (PBool b) = Ok self' ->
  Z.testbit (value self') n =
    if b then Z.testbit (value self) n || Z.testbit o n
    else Z.testbit (value self) n && negb (Z.testbit o n).
Proof.
  destruct b; simpl; intros [= <-]; simpl.
  - apply Z.lor_spec.
  - destruct (Z.neg_nonneg_cases n) as [Hn|Hn].
    + rewrite !Z.testbit_neg_r by assumption. reflexivity.
    + rewrite Z.land_spec, Z.lnot_spec by assumption. reflexivity.
Qed.

Lemma set_flag_class self o v self' :
  _set_flag self o v = Ok self' -> ob_class self' = ob_class self.
Proof. destruct v as [|[]| | | | |]; simpl; intros [= <-]; reflexivity. Qed.

(** Two writes to flags that share no bit can be made in either order. *)
Lemma set_flag_comm self o1 o2 b1 b2 s1 s2 :
  Z.land o1 o2 = 0 ->
  _set_flag self o1 (PBool b1) = Ok s1 ->
  _set_flag s1 o2 (PBool b2) = Ok s2 ->
  exists s1', _set_flag self o2 (PBool b2) = Ok s1'
              /\ _set_flag s1' o1 (PBool b1) = Ok s2.
Proof.
  intros Hdis H1 H2.
  assert (Hbits : forall n, Z.testbit o1 n && Z.testbit o2 n = false).
  { intros n. rewrite <- Z.land_spec, Hdis. apply Z.bits_0. }
  destruct b1, b2; simpl in *; injection H1 as <-; injection H2 as <-;
    simpl; eexists; (split; [reflexivity|]); simpl; f_equal; f_equal;
    apply Z.bits_inj'; intros n Hn; specialize (Hbits n);
    repeat first [rewrite Z.lor_spec | rewrite Z.land_spec
                 | rewrite Z.lnot_spec by assumption];
    destruct (Z.testbit (value self) n), (Z.testbit o1 n), (Z.testbit o2 n);
    simpl in *; congruence.
Qed.

(** ** Reading and writing one flag *)

(** C10: on an instance whose class declares [n] as the bit [1 << p] and [m]
    as another bit [1 << q], writing the boolean [b] to [n] succeeds; [n]
    then reads [b], [m] reads what it read before, and no bit of the backing
    integer other than [p] has changed. *)
Theorem setattr_frame self n m p q b :
  0 <= p -> 0 <= q -> p <> q ->
  alist_get n (cls_dict (ob_class self))
    = Some (AFlag {| flag := Z.shiftl 1 p |}) ->
  alist_get m (cls_dict (ob_class self))
    = Some (AFlag {| flag := Z.shiftl 1 q |}) ->
  exists self',
    setattr self n (PBool b) = Ok self'
    /\ getattr self' n = Ok b
    /\ getattr self' m = getattr self m
    /\ (forall i, i <> p ->
          Z.testbit (value self') i = Z.testbit (value self) i).
Proof.
  intros Hp Hq Hpq Hn Hm.
  destruct (_set_flag self (Z.shiftl 1 p) (PBool b)) as [self'|e] eqn:Hset;
    [|destruct b; discriminate].
  pose proof (set_flag_class _ _ _ _ Hset) as Hcls.
  pose proof (fun i => testbit_set _ _ _ _ i Hset) as Hbits.
  exists self'. unfold setattr, getattr, flag_set, flag_get.
  rewrite Hcls, Hn, Hm. simpl.
  repeat split.
  - exact Hset.
  - rewrite has_flag_testbit, Hbits, testbit_shiftl_1, Z.eqb_refl by assumption.
    f_equal. destruct b; [apply orb_true_r | apply andb_false_r].
  - rewrite !has_flag_testbit, Hbits, testbit_shiftl_1 by assumption.
    destruct (Z.eqb_spec p q); [contradiction|].
    f_equal. destruct b; [apply orb_false_r | apply andb_true_r].
  - intros i Hi. rewrite Hbits.
    destruct (Z.neg_nonneg_cases i) as [Hneg|Hnn].
    + rewrite !Z.testbit_neg_r by assumption. destruct b; reflexivity.
    + rewrite testbit_shiftl_1 by assumption.
      destruct (Z.eqb_spec p i); [congruence|].
      destruct b; [apply orb_false_r | apply andb_true_r].
Qed.

(** The badges [paw] and [founder] of an instance decoded from [0b10000]. *)
Lemma setattr_frame_witness :
  exists self',
    setattr (_from_value UserBadges 16) "paw" (PBool true) = Ok self'
    /\ getattr self' "paw" = Ok true
    /\ getattr self' "founder" = getattr (_from_value UserBadges 16) "founder"
    /\ (forall i, i <> 7 ->
          Z.testbit (value self') i
          = Z.testbit (value (_from_value UserBadges 16)) i).
Proof.
  apply (setattr_frame (_from_value UserBadges 16) "paw" "founder" 7 4 true);
    [lia | lia | lia | reflexivity | reflexivity].
Defined.

(** ** The decorator *)

Lemma elem_of_declared d name z :
  (name, z) ∈ declared d <-> (name, AFlag {| flag := z |}) ∈ d.
Proof.
  induction d as [|[k [[o]|]] d IH]; simpl.
  - rewrite !elem_of_nil. tauto.
  - rewrite !elem_of_cons, IH. split; (intros [Heq|Hin]; [left|right; exact Hin]).
    + injection Heq as -> ->. reflexivity.
    + injection Heq as -> ->. reflexivity.
  - rewrite elem_of_cons, IH. split; [tauto|]. intros [Heq|Hin]; [discriminate|exact Hin].
Qed.

Lemma declared_keys d name : name ∈ (declared d).*1 -> name ∈ d.*1.
Proof.
  rewrite !list_elem_of_fmap. intros [[k z] [-> Hin]].
  apply elem_of_declared in Hin. eexists. split; [|exact Hin]. reflexivity.
Qed.

Lemma NoDup_declared d : NoDup d.*1 -> NoDup (declared d).*1.
Proof.
  induction d as [|[k [fv|]] d IH]; simpl; intros Hnd.
  - constructor.
  - apply NoDup_cons in Hnd as [Hk Hnd]. apply NoDup_cons. split; [|auto].
    intros Hin. apply Hk, declared_keys, Hin.
  - apply NoDup_cons in Hnd as [_ Hnd]. auto.
Qed.

(** Inserting the items of a list without repeated keys, in order. *)
Lemma foldl_insert_lookup (l : list (string * Z)) (m0 : gmap string Z) n z :
  NoDup l.*1 ->
  (foldl (fun m '(name, v) => <[name := v]> m) m0 l) !! n = Some z
  <-> (n, z) ∈ l \/ ((n ∉ l.*1) /\ m0 !! n = Some z).
Proof.
  revert m0. induction l as [|[k v] l IH]; simpl; intros m0 Hnd.
  - rewrite elem_of_nil. split; [intros Hl; right; split; [apply not_elem_of_nil|exact Hl]|].
    intros [[]|[_ Hl]]. exact Hl.
  - apply NoDup_cons in Hnd as [Hk Hnd]. rewrite IH by exact Hnd.
    rewrite !elem_of_cons. destruct (decide (k = n)) as [->|Hne].
    + rewrite lookup_insert_eq. split.
      * intros [Hin|[_ [= ->]]]; [|left; left; reflexivity].
        exfalso. apply Hk, list_elem_of_fmap. exists (n, z). split; [reflexivity|exact Hin].
      * intros [[[= ->]|Hin]|[Hno _]].
        -- right. split; [exact Hk|reflexivity].
        -- left. exact Hin.
        -- exfalso. apply Hno. left. reflexivity.
    + rewrite lookup_insert_ne by exact Hne. split.
      * intros [Hin|[Hno Hl]]; [left; right; exact Hin|].
        right. split; [|exact Hl]. intros [Heq|Hin]; [congruence|contradiction].
      * intros [[[= -> ->]|Hin]|[Hno Hl]]; [congruence|left; exact Hin|].
        right. split; [|exact Hl]. intros Hin. apply Hno. right. exact Hin.
Qed.

Lemma collect_flags_lookup d name z :
  NoDup d.*1 ->
  collect_flags d !! name = Some z <-> (name, AFlag {| flag := z |}) ∈ d.
Proof.
  intros Hnd. unfold collect_flags.
  rewrite foldl_insert_lookup by (apply NoDup_declared, Hnd).
  rewrite elem_of_declared. split; [|auto].
  intros [Hin|[_ Hl]]; [exact Hin|]. rewrite lookup_empty in Hl. discriminate.
Qed.

Lemma foldl_max_spec xs x :
  foldl Z.max x xs ∈ x :: xs /\ forall y, y ∈ x :: xs -> y <= foldl Z.max x xs.
Proof.
  revert x. induction xs as [|y ys IH]; simpl; intros x.
  - split; [left|]. intros y Hy. apply list_elem_of_singleton in Hy. lia.
  - destruct (IH (Z.max x y)) as [Hin Hub]. split.
    + apply elem_of_cons in Hin as [Heq|Hin].
      * rewrite Heq. destruct (Z.max_spec x y) as [[_ ->]|[_ ->]];
          [right; left | left].
      * right; right; exact Hin.
    + intros z Hz.
      assert (Hm : Z.max x y <= foldl Z.max (Z.max x y) ys) by (apply Hub; left).
      apply elem_of_cons in Hz as [->|Hz]; [lia|].
      apply elem_of_cons in Hz as [->|Hz]; [lia|].
      apply Hub. right. exact Hz.
Qed.

(** C7: a class body whose names are distinct is decorated as follows. Not
    inverted, the default backing integer is [0]. Inverted, with [top] the
    largest declared bit value and [top] positive, it is
    [2 ^ (h + 1) - 1] for [h = Z.log2 top], the position of the highest bit
    of [top] (so [h] itself when [top] is [1 << h]): exactly the bits [0]
    to [h] are on. Either way [VALID_FLAGS] maps the declared flag names,
    and only those, to their bit values. *)
Theorem fill_with_flags_spec name d :
  NoDup d.*1 ->
  (exists cls,
     fill_with_flags false name d = Ok cls
     /\ DEFAULT_VALUE cls = 0
     /\ exactly_declared cls d)
  /\ (forall top,
        largest_declared d top -> 0 < top ->
        exists cls,
          fill_with_flags true name d = Ok cls
          /\ DEFAULT_VALUE cls = 2 ^ (Z.log2 top + 1) - 1
          /\ (forall i, Z.testbit (DEFAULT_VALUE cls) i
                        = (0 <=? i) && (i <=? Z.log2 top))
          /\ exactly_declared cls d).
Proof.
  intros Hnd. split.
  - eexists. split; [reflexivity|]. split; [reflexivity|].
    intros n z. simpl. apply collect_flags_lookup, Hnd.
  - intros top [[tname Htop] Hub] Hpos. unfold fill_with_flags.
    assert (Hin : top ∈ (map_to_list (collect_flags d)).*2).
    { apply list_elem_of_fmap. exists (tname, top). split; [reflexivity|].
      apply elem_of_map_to_list, collect_flags_lookup; assumption. }
    destruct ((map_to_list (collect_flags d)).*2) as [|x xs] eqn:Hvals;
      [apply elem_of_nil in Hin; contradiction|].
    simpl. destruct (foldl_max_spec xs x) as [Hmem Hmax].
    assert (Hle : foldl Z.max x xs <= top).
    { rewrite <- Hvals in Hmem. apply list_elem_of_fmap in Hmem as [[k v] [-> Hkv]].
      apply elem_of_map_to_list, collect_flags_lookup in Hkv; [|exact Hnd].
      apply (Hub k {| flag := v |}), Hkv. }
    assert (Heq : foldl Z.max x xs = top) by (apply Hmax in Hin; simpl in *; lia).
    rewrite Heq. unfold bit_length.
    rewrite Z.abs_eq by lia. destruct (Z.eqb_spec top 0) as [|_]; [lia|].
    eexists. split; [reflexivity|]. simpl.
    pose proof (Z.log2_nonneg top) as Hlog.
    assert (Hones : -1 + 2 ^ (Z.log2 top + 1) = Z.ones (Z.log2 top + 1))
      by (rewrite Z.ones_equiv; lia).
    split; [lia|]. split.
    + intros i. rewrite Hones.
      destruct (Z.leb_spec 0 i) as [Hi|Hi]; simpl.
      * destruct (Z.leb_spec i (Z.log2 top)).
        -- apply Z.ones_spec_low. lia.
        -- apply Z.ones_spec_high. lia.
      * apply Z.testbit_neg_r, Hi.
    + intros n z. simpl. apply collect_flags_lookup, Hnd.
Qed.

Lemma fill_with_flags_spec_witness :
  (exists cls,
     fill_with_flags false "UserBadges" UserBadges_dict = Ok cls
     /\ DEFAULT_VALUE cls = 0
     /\ exactly_declared cls UserBadges_dict)
  /\ (exists cls,
        fill_with_flags true "Inverted" inverted_dict = Ok cls
        /\ DEFAULT_VALUE cls = 2 ^ (Z.log2 8 + 1) - 1
        /\ (forall i, Z.testbit (DEFAULT_VALUE cls) i
                      = (0 <=? i) && (i <=? Z.log2 8))
        /\ exactly_declared cls inverted_dict).
Proof.
  split.
  - apply (fill_with_flags_spec "UserBadges" UserBadges_dict).
    apply (bool_decide_unpack _). vm_compute. exact I.
  - apply (fill_with_flags_spec "Inverted" inverted_dict).
    + apply (bool_decide_unpack _). vm_compute. exact I.
    + split.
      * exists "write". apply list_elem_of_In. simpl. tauto.
      * intros k fv Hk. apply list_elem_of_In in Hk. simpl in Hk.
        destruct Hk as [Hk|[Hk|[Hk|[]]]]; inversion Hk; vm_compute; discriminate.
    + lia.
Defined.

(** ** Construction *)

Lemma alist_get_elem {A} (d : list (string * A)) k a :
  NoDup d.*1 -> (k, a) ∈ d -> alist_get k d = Some a.
Proof.
  induction d as [|[k' a'] d IH]; simpl; intros Hnd Hin.
  - apply elem_of_nil in Hin. contradiction.
  - apply NoDup_cons in Hnd as [Hk Hnd].
    apply elem_of_cons in Hin as [[= -> ->]|Hin].
    + rewrite String.eqb_refl. reflexivity.
    + destruct (String.eqb_spec k k') as [->|_]; [|auto].
      exfalso. apply Hk, list_elem_of_fmap. exists (k', a). auto.
Qed.

Lemma fill_with_flags_fields inverted name d cls :
  fill_with_flags inverted name d = Ok cls ->
  cls_name cls = name /\ cls_dict cls = d /\ VALID_FLAGS cls = collect_flags d.
Proof.
  unfold fill_with_flags. destruct inverted.
  - destruct (py_max _); simpl; [|discriminate]. intros [= <-]. auto.
  - intros [= <-]. auto.
Qed.

Lemma fill_with_flags_consistent inverted name d cls :
  NoDup d.*1 -> fill_with_flags inverted name d = Ok cls -> consistent cls.
Proof.
  intros Hnd Hfill k z Hk.
  apply fill_with_flags_fields in Hfill as (_ & -> & Hvalid).
  rewrite Hvalid in Hk. apply alist_get_elem; [exact Hnd|].
  apply collect_flags_lookup; assumption.
Qed.

Lemma NoDup_UserBadges_dict : NoDup UserBadges_dict.*1.
Proof. apply (bool_decide_unpack _). vm_compute. exact I. Qed.

Lemma UserBadges_consistent : consistent UserBadges.
Proof.
  apply (fill_with_flags_consistent false "UserBadges" UserBadges_dict).
  - apply NoDup_UserBadges_dict.
  - reflexivity.
Qed.

(** One turn of the loop of [__init__] that goes through. *)
Lemma init_loop_cons_inv self k v l a :
  init_loop ((k, v) :: l) self = Ok a ->
  exists z fv b s1,
    VALID_FLAGS (ob_class self) !! k = Some z
    /\ alist_get k (cls_dict (ob_class self)) = Some (AFlag fv)
    /\ v = PBool b
    /\ _set_flag self (flag fv) (PBool b) = Ok s1
    /\ init_loop l s1 = Ok a.
Proof.
  simpl. unfold setattr, flag_set.
  destruct (VALID_FLAGS (ob_class self) !! k) as [z|]; [|discriminate].
  destruct (alist_get k (cls_dict (ob_class self))) as [[fv|]|];
    [|discriminate..].
  destruct (_set_flag self (flag fv) v) as [s1|] eqn:Hset; [|discriminate].
  simpl. intros Hl. exists z, fv.
  destruct v as [|b| | | | |]; try discriminate. exists b, s1. auto.
Qed.

Lemma init_loop_cons_intro self k z fv b s1 l :
  VALID_FLAGS (ob_class self) !! k = Some z ->
  alist_get k (cls_dict (ob_class self)) = Some (AFlag fv) ->
  _set_flag self (flag fv) (PBool b) = Ok s1 ->
  init_loop ((k, PBool b) :: l) self = init_loop l s1.
Proof.
  intros Hv Hd Hset. simpl. unfold setattr, flag_set.
  rewrite Hv, Hd, Hset. reflexivity.
Qed.

Lemma init_loop_app pre post self :
  init_loop (pre ++ post) self = rbind (init_loop pre self) (init_loop post).
Proof.
  revert self. induction pre as [|[k v] pre IH]; simpl; intros self; [reflexivity|].
  destruct (VALID_FLAGS (ob_class self) !! k); [|reflexivity].
  destruct (setattr self k v); simpl; [apply IH|reflexivity].
Qed.

(** Well-formed overrides are all applied. *)
Lemma init_loop_well_formed kwargs self :
  consistent (ob_class self) ->
  well_formed_kwargs (ob_class self) kwargs ->
  exists self', init_loop kwargs self = Ok self'
                /\ ob_class self' = ob_class self.
Proof.
  intros Hcons Hwf. revert self Hcons Hwf.
  induction kwargs as [|[k v] kwargs IH]; intros self Hcons Hwf.
  - exists self. auto.
  - apply Forall_cons in Hwf as [[[z Hz] [b Hb]] Hwf]. simpl in Hz, Hb. subst v.
    destruct (_set_flag self z (PBool b)) as [s1|] eqn:Hset;
      [|destruct b; discriminate].
    pose proof (set_flag_class _ _ _ _ Hset) as Hcls.
    rewrite (init_loop_cons_intro self k z {| flag := z |} b s1);
      [|auto using Hcons..].
    destruct (IH s1) as [self' [Hl Hc]]; [rewrite Hcls; assumption..|].
    exists self'. split; [exact Hl|congruence].
Qed.

(** C8, as the code has it: the overrides are taken in the order given, and
    at the first one that is not a declared name with a boolean value the
    construction stops. An undeclared name and a value that is not a boolean
    both raise [TypeError]; only the message tells them apart. *)
Theorem init_rejects inverted name d cls pre key v post :
  NoDup d.*1 ->
  fill_with_flags inverted name d = Ok cls ->
  well_formed_kwargs cls pre ->
  (VALID_FLAGS cls !! key = None ->
     __init__ cls (pre ++ (key, v) :: post)
     = Raise (TypeError (py_repr key +:+ " is not a valid flag name.")))
  /\ (is_Some (VALID_FLAGS cls !! key) ->
      (forall b, v <> PBool b) ->
      __init__ cls (pre ++ (key, v) :: post)
      = Raise (TypeError ("Value to set for " +:+ name +:+ " must be a bool."))).
Proof.
  intros Hnd Hfill Hwf.
  pose proof (fill_with_flags_consistent _ _ _ _ Hnd Hfill) as Hcons.
  apply fill_with_flags_fields in Hfill as (Hname & _ & _).
  set (self0 := {| ob_class := cls; value := DEFAULT_VALUE cls |}).
  destruct (init_loop_well_formed pre self0 Hcons Hwf) as [self [Hpre Hcls]].
  unfold __init__. fold self0. rewrite init_loop_app, Hpre. simpl.
  rewrite Hcls. simpl. split.
  - intros ->. reflexivity.
  - intros [z Hz] Hv. rewrite Hz. unfold setattr, flag_set.
    rewrite Hcls. simpl. rewrite (Hcons _ _ Hz). simpl.
    destruct v as [|b| | | | |]; simpl; rewrite ?Hcls; simpl; rewrite ?Hname;
      try reflexivity.
    destruct (Hv b). reflexivity.
Qed.

Lemma init_rejects_witness :
  __init__ UserBadges [("developer", PBool true); ("bogus", PBool true)]
  = Raise (TypeError "'bogus' is not a valid flag name.")
  /\ __init__ UserBadges [("developer", PBool true); ("paw", PInt 1)]
     = Raise (TypeError "Value to set for UserBadges must be a bool.").
Proof.
  assert (Hnd : NoDup UserBadges_dict.*1)
    by (apply (bool_decide_unpack _); vm_compute; exact I).
  assert (Hwf : well_formed_kwargs UserBadges [("developer", PBool true)]).
  { constructor; [|constructor]. split; [exists 1; reflexivity|].
    exists true. reflexivity. }
  split.
  - apply (proj1 (init_rejects false "UserBadges" UserBadges_dict UserBadges
                    [("developer", PBool true)] "bogus" (PBool true) []
                    Hnd eq_refl Hwf)).
    reflexivity.
  - apply (proj2 (init_rejects false "UserBadges" UserBadges_dict UserBadges
                    [("developer", PBool true)] "paw" (PInt 1) []
                    Hnd eq_refl Hwf)).
    + exists 128. reflexivity.
    + intros b. discriminate.
Defined.

(** C8 as stated fails: an undeclared name and a value that is not a boolean
    raise an exception of one and the same class, and an undeclared name
    that comes after such a value is never reported. *)
Lemma init_errors_not_distinct :
  (exists e1 e2,
     __init__ UserBadges [("bogus", PBool true)] = Raise e1
     /\ __init__ UserBadges [("developer", PInt 1)] = Raise e2
     /\ class_of e1 = class_of e2)
  /\ __init__ UserBadges [("developer", PInt 1); ("bogus", PBool true)]
     = Raise (TypeError "Value to set for UserBadges must be a bool.").
Proof.
  split; [|reflexivity].
  eexists. eexists. split; [reflexivity|]. split; reflexivity.
Qed.

(** ** UserBadges *)

(** Two badges of different names have no bit in common. *)
Lemma UserBadges_disjoint k1 k2 f1 f2 :
  k1 <> k2 ->
  alist_get k1 UserBadges_dict = Some (AFlag f1) ->
  alist_get k2 UserBadges_dict = Some (AFlag f2) ->
  Z.land (flag f1) (flag f2) = 0.
Proof.
  intros Hne H1 H2. unfold UserBadges_dict in H1, H2. simpl in H1, H2.
  repeat match type of H1 with
         | context [String.eqb k1 ?s] =>
             destruct (String.eqb_spec k1 s) as [->|?]
         end;
    try discriminate; injection H1 as <-;
    repeat match type of H2 with
           | context [String.eqb k2 ?s] =>
               destruct (String.eqb_spec k2 s) as [->|?]
           end;
    try discriminate; try congruence; injection H2 as <-; reflexivity.
Qed.

Lemma init_loop_swap self k1 v1 k2 v2 l a :
  ob_class self = UserBadges -> k1 <> k2 ->
  init_loop ((k1, v1) :: (k2, v2) :: l) self = Ok a ->
  init_loop ((k2, v2) :: (k1, v1) :: l) self = Ok a.
Proof.
  intros Hcls Hne Hl.
  apply init_loop_cons_inv in Hl as (z1 & f1 & b1 & s1 & Hv1 & Hd1 & -> & Hs1 & Hl).
  apply init_loop_cons_inv in Hl as (z2 & f2 & b2 & s2 & Hv2 & Hd2 & -> & Hs2 & Hl).
  pose proof (set_flag_class _ _ _ _ Hs1) as Hc1.
  rewrite Hc1 in Hv2, Hd2.
  assert (Hdis : Z.land (flag f1) (flag f2) = 0).
  { rewrite Hcls in Hd1, Hd2. exact (UserBadges_disjoint _ _ _ _ Hne Hd1 Hd2). }
  destruct (set_flag_comm _ _ _ _ _ _ _ Hdis Hs1 Hs2) as (s1' & Hs1' & Hs2').
  pose proof (set_flag_class _ _ _ _ Hs1') as Hc1'.
  rewrite (init_loop_cons_intro self k2 z2 f2 b2 s1') by assumption.
  rewrite (init_loop_cons_intro s1' k1 z1 f1 b1 s2) by (rewrite ?Hc1'; assumption).
  exact Hl.
Qed.

(** The order of the overrides does not matter to a [UserBadges]. *)
Lemma init_loop_perm kw1 kw2 :
  Permutation kw1 kw2 -> NoDup kw1.*1 ->
  forall self a,
    ob_class self = UserBadges ->
    init_loop kw1 self = Ok a -> init_loop kw2 self = Ok a.
Proof.
  induction 1 as [|[k v] l l' Hperm IH|[k1 v1] [k2 v2] l|l l' l'' H1 IH1 H2 IH2];
    intros Hnd self a Hcls Hl.
  - exact Hl.
  - apply NoDup_cons in Hnd as [_ Hnd].
    apply init_loop_cons_inv in Hl as (z & fv & b & s1 & Hv & Hd & -> & Hs & Hl).
    rewrite (init_loop_cons_intro self k z fv b s1) by assumption.
    apply IH; [exact Hnd| |exact Hl].
    rewrite (set_flag_class _ _ _ _ Hs). exact Hcls.
  - apply init_loop_swap; [exact Hcls| |exact Hl].
    simpl in Hnd. apply NoDup_cons in Hnd as [Hk _].
    intros ->. apply Hk. left.
  - apply IH2; [|exact Hcls|apply IH1; assumption].
    rewrite <- H1. exact Hnd.
Qed.

Lemma eq_refl_flags a : __eq__ a a = true.
Proof. unfold __eq__. rewrite String.eqb_refl, Z.eqb_refl. reflexivity. Qed.

(** C6: [UserBadges(developer=True, founder=True)] has the backing integer
    [(1 << 0) | (1 << 4)]; iterating it yields the ten declared names in
    declaration order, [developer] and [founder] with [True] and the other
    eight with [False]; and two [UserBadges] built from the same keyword
    overrides, given in any order, are equal. *)
Theorem UserBadges_developer_founder :
  (exists self,
     __init__ UserBadges [("developer", PBool true); ("founder", PBool true)]
     = Ok self
     /\ value self = Z.lor (Z.shiftl 1 0) (Z.shiftl 1 4)
     /\ __iter__ self =
          [ ("developer", true); ("translator", false); ("supporter", false);
            ("responsible_disclosure", false); ("founder", true);
            ("platform_moderation", false); ("active_supporter", false);
            ("paw", false); ("early_adopter", false);
            ("reserved_relevant_joke_badge_1", false) ])
  /\ (forall kw1 kw2 a,
        Permutation kw1 kw2 -> NoDup kw1.*1 ->
        __init__ UserBadges kw1 = Ok a ->
        exists b, __init__ UserBadges kw2 = Ok b
                  /\ __eq__ a b = true /\ __ne__ a b = false).
Proof.
  split.
  - eexists. split; [reflexivity|]. split; reflexivity.
  - intros kw1 kw2 a Hperm Hnd Ha. exists a. unfold __ne__.
    rewrite eq_refl_flags. split; [|auto].
    exact (init_loop_perm kw1 kw2 Hperm Hnd
             {| ob_class := UserBadges; value := DEFAULT_VALUE UserBadges |}
             a eq_refl Ha).
Qed.

Lemma UserBadges_developer_founder_witness :
  exists b,
    __init__ UserBadges
      [("founder", PBool true); ("paw", PBool false); ("developer", PBool true)]
    = Ok b
    /\ __eq__ (_from_value UserBadges 17) b = true
    /\ __ne__ (_from_value UserBadges 17) b = false.
Proof.
  apply (proj2 UserBadges_developer_founder
           [("developer", PBool true); ("founder", PBool true);
            ("paw", PBool false)]).
  - apply (Permutation_cons_append
             [("founder", PBool true); ("paw", PBool false)]
             ("developer", PBool true)).
  - apply (bool_decide_unpack _). vm_compute. exact I.
  - reflexivity.
Defined.

End FlagsFacts.

(** * Facts about the HTTP client *)
Module HttpFacts.
Import Http.

Section Dispatch.
Context `{Runtime}.
Variable network : nat -> outcome.

(** ** The fields of the client after a step *)

Lemma trace_log e c : trace (log e c) = (trace c ++ [e])%list.
Proof. reflexivity. Qed.

Lemma trace_count_exchange c : trace (count_exchange c) = trace c.
Proof. reflexivity. Qed.

Lemma trace_set_global_over b c : trace (set_global_over b c) = trace c.
Proof. reflexivity. Qed.

Lemma sent_log e c : sent (log e c) = sent c.
Proof. reflexivity. Qed.

Lemma sent_count_exchange c : sent (count_exchange c) = S (sent c).
Proof. reflexivity. Qed.

Lemma sent_set_global_over b c : sent (set_global_over b c) = sent c.
Proof. reflexivity. Qed.

Create Rewrite HintDb client.
Hint Rewrite trace_log trace_count_exchange trace_set_global_over
  sent_log sent_count_exchange sent_set_global_over : client.

(** ** One turn of the retry loop *)

(** The state after a request has gone out. *)
Lemma session_request_responded method url hdrs b c r :
  network (sent c) = Responded r ->
  session_request network method url hdrs b c
  = (Ok r, count_exchange (log (EvRequest method url hdrs b) c)).
Proof.
  intros Hnet. unfold session_request, bind, emit, modify, get. simpl.
  rewrite Hnet. reflexivity.
Qed.

Lemma session_request_failed method url hdrs b c errno :
  network (sent c) = Failed errno ->
  session_request network method url hdrs b c
  = (Raise (OSError errno), count_exchange (log (EvRequest method url hdrs b) c)).
Proof.
  intros Hnet. unfold session_request, bind, emit, modify, get. simpl.
  rewrite Hnet. reflexivity.
Qed.

(** A transient server error: sleep and go on. *)
Lemma attempt_retried method url hdrs b tries last c r data :
  network (sent c) = Responded r ->
  retried (status r) ->
  json_or_text r = Ok data ->
  attempt network method url hdrs b tries last c
  = (Ok (Next (Some (r, data))),
     log (EvSleep (PInt (1 + tries * 2)))
         (count_exchange (log (EvRequest method url hdrs b) c))).
Proof.
  intros Hnet Hst Hjson. unfold attempt, try_except, bind.
  rewrite (session_request_responded _ _ _ _ _ _ Hnet).
  unfold lift. rewrite Hjson.
  destruct Hst as [-> | [-> | ->]]; reflexivity.
Qed.


Lemma is_delay_number v : is_delay v = true -> is_number v = true.
Proof. destruct v; simpl; congruence. Qed.




(** ** Running out of turns *)

Lemma attempts_retried_turn method url hdrs form b tries rest last c r data :
  network (sent c) = Responded r ->
  retried (status r) ->
  json_or_text r = Ok data ->
  let b' := if form_given form then FormBody (default [] form) else b in
  attempts network method url hdrs form b (tries :: rest) last c
  = attempts network method url hdrs form b' rest (Some (r, data))
      (log (EvSleep (PInt (1 + tries * 2)))
           (count_exchange (log (EvRequest method url hdrs b') c))).
Proof.
  intros Hnet Hst Hjson b'. simpl. unfold bind. fold b'.
  rewrite (attempt_retried _ _ _ _ _ _ _ _ _ Hnet Hst Hjson). reflexivity.
Qed.

Lemma form_body_idem form b :
  let b' := if form_given form then FormBody (default [] form) else b in
  (if form_given form then FormBody (default [] form) else b') = b'.
Proof. simpl. destruct (form_given form); reflexivity. Qed.

(** C2, as the code has it: when each of the five turns is answered with a
    status of 500, 502 or 504, five requests go out, after each of them,
    the last one too, [1 + 2 * tries] seconds are slept, which makes the
    five sleeps 1, 3, 5, 7 and 9, and then [RevoltServerError] is raised
    with the last response, the bucket lock released. *)
Theorem server_errors_exhaust route form json c :
  (forall i, (i < 5)%nat ->
     exists r data,
       network (i + sent c)%nat = Responded r
       /\ retried (status r) /\ json_or_text r = Ok data) ->
  exists r data c' evs,
    network (4 + sent c)%nat = Responded r
    /\ json_or_text r = Ok data
    /\ request network route form json c = (Raise (RevoltServerError r data), c')
    /\ trace c' = (trace c ++ evs)%list
    /\ exchanges evs = 5%nat
    /\ sleeps evs = [PInt 1; PInt 3; PInt 5; PInt 7; PInt 9]
    /\ (exists evs',
          evs = (evs' ++ [EvSleep (PInt 9); EvRelease (bucket route)])%list)
    /\ sent c' = (5 + sent c)%nat.
Proof.
  intros Hall.
  destruct (Hall 0%nat) as (r0 & d0 & Hn0 & Hs0 & Hj0); [lia|].
  destruct (Hall 1%nat) as (r1 & d1 & Hn1 & Hs1 & Hj1); [lia|].
  destruct (Hall 2%nat) as (r2 & d2 & Hn2 & Hs2 & Hj2); [lia|].
  destruct (Hall 3%nat) as (r3 & d3 & Hn3 & Hs3 & Hj3); [lia|].
  destruct (Hall 4%nat) as (r4 & d4 & Hn4 & Hs4 & Hj4); [lia|].
  exists r4, d4.
  unfold request, bind, get, with_MaybeUnlock, range5.
  set (hdrs := request_headers c json).
  set (b0 := match json with Some j => JsonBody (json_dumps j) | None => NoBody end).
  set (c0 := (emit (EvAcquire (bucket route))
                (when (negb (_global_over c))
                   (fun c => let (_, c') := emit EvGateWait c in
                             modify (set_global_over true) c') c).2).2).
  assert (Hc0 : sent c0 = sent c /\
                trace c0
                = (trace c ++ (if _global_over c then [] else [EvGateWait])
                           ++ [EvAcquire (bucket route)])%list).
  { subst c0. destruct (_global_over c); simpl; split; try reflexivity.
    rewrite <- app_assoc. reflexivity. }
  destruct Hc0 as [Hsent Htrace].
  replace (when (negb (_global_over c))
             (fun c1 => match emit EvGateWait c1 with
                        | (Ok a, c') => modify (set_global_over true) c'
                        | (Raise e, c') => (Raise e, c')
                        end) c)
    with (Ok tt, (when (negb (_global_over c))
                    (fun c => let (_, c') := emit EvGateWait c in
                              modify (set_global_over true) c') c).2)
    by (destruct (_global_over c); reflexivity).
  change (emit (EvAcquire (bucket route)) _) with (Ok tt, c0).
  cbv beta iota.
  rewrite <- Hsent in Hn0, Hn1, Hn2, Hn3, Hn4. simpl in Hn0, Hn1, Hn2, Hn3, Hn4.
  assert (Hb0 : (if form_given form then FormBody (default [] form) else b0)
                = sent_body form json) by reflexivity.
  assert (Hb1 : (if form_given form then FormBody (default [] form)
                 else sent_body form json) = sent_body form json)
    by (unfold sent_body; destruct (form_given form); reflexivity).
  rewrite attempts_retried_turn with (r := r0) (data := d0);
    [|exact Hn0|exact Hs0|exact Hj0].
  cbv zeta. rewrite Hb0.
  rewrite attempts_retried_turn with (r := r1) (data := d1);
    [|exact Hn1|exact Hs1|exact Hj1].
  cbv zeta. rewrite Hb1.
  rewrite attempts_retried_turn with (r := r2) (data := d2);
    [|exact Hn2|exact Hs2|exact Hj2].
  cbv zeta. rewrite Hb1.
  rewrite attempts_retried_turn with (r := r3) (data := d3);
    [|exact Hn3|exact Hs3|exact Hj3].
  cbv zeta. rewrite Hb1.
  rewrite attempts_retried_turn with (r := r4) (data := d4);
    [|exact Hn4|exact Hs4|exact Hj4].
  cbv zeta. rewrite Hb1.
  generalize (sent_body form json) as b1. intros b1.
  simpl attempts.
  assert (Hge : (500 <=? status r4) = true)
    by (destruct Hs4 as [-> | [-> | ->]]; reflexivity).
  rewrite Hge. unfold raise. simpl.
  unfold __exit__, emit, modify. simpl.
  eexists. eexists. rewrite <- Hsent.
  split; [exact Hn4|]. split; [exact Hj4|]. split; [reflexivity|].
  autorewrite with client. rewrite Htrace, <- !app_assoc. simpl.
  split; [reflexivity|].
  destruct (_global_over c); simpl;
    (split; [reflexivity|]); (split; [reflexivity|]); (split; [|reflexivity]).
  - eexists (_ :: _ :: _ :: _ :: _ :: _ :: _ :: _ :: _ :: _ :: []). reflexivity.
  - eexists (_ :: _ :: _ :: _ :: _ :: _ :: _ :: _ :: _ :: _ :: _ :: []). reflexivity.
Qed.

(** ** Routes *)

(** C4: the bucket key of a route is the channel id, the server id and the
    path template as it was given, joined by colons; a major parameter that
    was not passed shows as [None]. The route of the example has the key
    ["C:S:/x/{channel_id}"], whatever its URL has become. *)
Theorem bucket_spec method path parameters r :
  Route_init method path parameters = Ok r ->
  bucket r = major "channel_id" parameters +:+ ":"
             +:+ major "server_id" parameters +:+ ":" +:+ path
  /\ (alist_get "channel_id" parameters = Some (PStr "C") ->
      alist_get "server_id" parameters = Some (PStr "S") ->
      path = "/x/{channel_id}" ->
      bucket r = "C:S:/x/{channel_id}").
Proof.
  unfold Route_init. intros Hr.
  assert (Hb : bucket r = py_str (parameters_get "channel_id" parameters)
                          +:+ ":" +:+ py_str (parameters_get "server_id" parameters)
                          +:+ ":" +:+ path).
  { destruct (match parameters with [] => _ | _ => _ end) as [u|]; simpl in Hr;
      [|discriminate]. injection Hr as <-. reflexivity. }
  split.
  - rewrite Hb. unfold major, parameters_get.
    destruct (alist_get "channel_id" parameters),
             (alist_get "server_id" parameters); reflexivity.
  - intros Hc Hs ->. rewrite Hb. unfold parameters_get. rewrite Hc, Hs.
    reflexivity.
Qed.

(** ** Uploads *)

(** What [upload_file] does with the answer of the file host: one request,
    no lock, no gate, no sleep, no second try. *)
Lemma upload_file_spec file tag c features autumn base r data :
  subscript (api_info c) "features" = Ok features ->
  subscript features "autumn" = Ok autumn ->
  subscript autumn "url" = Ok base ->
  network (sent c) = Responded r ->
  json_or_text r = Ok data ->
  upload_file network file tag c
  = (if status r =? 400 then Raise (HTTPException r data)
     else if (500 <=? status r) && (status r <=? 600) then
       Raise (RevoltServerError r data)
     else Ok data,
     count_exchange (log (upload_event c base file tag) c)).
Proof.
  intros Hf Ha Hu Hnet Hjson. unfold upload_file, bind, get, lift.
  rewrite Hf, Ha, Hu.
  rewrite (session_request_responded _ _ _ _ _ _ Hnet), Hjson.
  unfold upload_event.
  destruct (status r =? 400); [reflexivity|].
  destruct ((500 <=? status r) && (status r <=? 600)); reflexivity.
Qed.

(** ** The credential across a request *)

Lemma same_login_refl c : same_login c c.
Proof. repeat split. Qed.

Lemma same_login_trans c1 c2 c3 :
  same_login c1 c2 -> same_login c2 c3 -> same_login c1 c3.
Proof. unfold same_login. intros (? & ? & ?) (? & ? & ?). repeat split; congruence. Qed.

Lemma keeps_ret {A} (a : A) : keeps (ret a).
Proof. intros c. apply same_login_refl. Qed.

Lemma keeps_raise {A} e : keeps (@raise A e).
Proof. intros c. apply same_login_refl. Qed.

Lemma keeps_lift {A} (r : result A) : keeps (lift r).
Proof. intros c. apply same_login_refl. Qed.

Lemma keeps_get : keeps get.
Proof. intros c. apply same_login_refl. Qed.

Lemma keeps_bind {A B} (m : M A) (k : A -> M B) :
  keeps m -> (forall a, keeps (k a)) -> keeps (bind m k).
Proof.
  intros Hm Hk c. unfold bind. specialize (Hm c).
  destruct (m c) as [[a|e] c1]; simpl in *; [|exact Hm].
  eapply same_login_trans; [exact Hm|apply Hk].
Qed.

Lemma keeps_try_except {A} (m : M A) handler :
  keeps m -> (forall e h, handler e = Some h -> keeps h) ->
  keeps (try_except m handler).
Proof.
  intros Hm Hh c. unfold try_except. specialize (Hm c).
  destruct (m c) as [[a|e] c1]; simpl in *; [exact Hm|].
  destruct (handler e) as [h|] eqn:He; simpl; [|exact Hm].
  eapply same_login_trans; [exact Hm|apply (Hh e h He)].
Qed.

Lemma keeps_emit e : keeps (emit e).
Proof. intros c. repeat split. Qed.

Lemma keeps_sleep d : keeps (sleep d).
Proof.
  unfold sleep. destruct (is_number d); [apply keeps_emit|].
  intros c. apply same_login_refl.
Qed.

Lemma keeps_gate b : keeps (modify (set_global_over b)).
Proof. intros c. repeat split. Qed.

Lemma keeps_when b m : keeps m -> keeps (when b m).
Proof. intros Hm. destruct b; [exact Hm|apply keeps_ret]. Qed.

Lemma keeps_with_MaybeUnlock {A} lock (body : MaybeUnlock -> M A) :
  (forall g, keeps (body g)) -> keeps (with_MaybeUnlock lock body).
Proof.
  intros Hb c. unfold with_MaybeUnlock. specialize (Hb (MaybeUnlock_init lock) c).
  destruct (body (MaybeUnlock_init lock) c) as [r c1]. simpl in *. exact Hb.
Qed.

Lemma keeps_session_request method url hdrs b :
  keeps (session_request network method url hdrs b).
Proof.
  intros c. unfold session_request, bind, emit, modify, get. simpl.
  destruct (network (sent c)); repeat split.
Qed.

Ltac keeps_step :=
  first
    [ apply keeps_ret | apply keeps_raise | apply keeps_lift | apply keeps_get
    | apply keeps_emit | apply keeps_sleep | apply keeps_gate
    | apply keeps_session_request
    | apply keeps_when
    | apply keeps_bind; [|intros ?]
    | match goal with
      | |- keeps (if ?b then _ else _) => destruct b
      | |- keeps (match ?x with _ => _ end) => destruct x
      end ].

Lemma keeps_attempt method url hdrs b tries last :
  keeps (attempt network method url hdrs b tries last).
Proof.
  unfold attempt, gate_clear, gate_set. apply keeps_try_except.
  - repeat keeps_step.
  - intros e h He. destruct e; try discriminate. injection He as <-.
    repeat keeps_step.
Qed.

Lemma keeps_attempts method url hdrs form b range last :
  keeps (attempts network method url hdrs form b range last).
Proof.
  revert b last. induction range as [|tries rest IH]; intros b last; simpl.
  - destruct last as [[r d]|]; repeat keeps_step.
  - apply keeps_bind; [apply keeps_attempt|].
    intros [d|l]; [apply keeps_ret|apply IH].
Qed.

Lemma keeps_request route form json : keeps (request network route form json).
Proof.
  unfold request. apply keeps_bind; [apply keeps_get|]. intros c.
  apply keeps_bind; [repeat keeps_step|]. intros _.
  apply keeps_bind; [repeat keeps_step|]. intros _.
  apply keeps_with_MaybeUnlock. intros g. apply keeps_attempts.
Qed.

Lemma keeps_get_api_info : keeps (get_api_info network).
Proof.
  unfold get_api_info. apply keeps_bind; [apply keeps_lift|].
  intros r. apply keeps_request.
Qed.

Lemma keeps_fetch_self : keeps (fetch_self network).
Proof.
  unfold fetch_self. apply keeps_bind; [apply keeps_lift|].
  intros r. apply keeps_request.
Qed.

(** ** Login *)

(** C3, as the code has it: when the request for [/users/@me] fails with
    an [HTTPException] of any status, the credential that was installed
    before the call is put back; status 401 then raises [LoginFailure] with
    that exception as its cause, and any other status lets the exception
    through as it is. A failure that is not an [HTTPException] goes through
    as it is and leaves the attempted credential installed. *)
Theorem static_login_failure tok c info c1 e c3 :
  get_api_info network c = (Ok info, c1) ->
  fetch_self network (set_token (Some tok) (set_api_info info c1))
  = (Raise e, c3) ->
  (is_HTTPException e = true -> unauthorized e = true ->
     exists c',
       static_login network tok c
       = (Raise (LoginFailure "Improper token has been passed." e), c')
       /\ token c' = token c)
  /\ (is_HTTPException e = true -> unauthorized e = false ->
      exists c',
        static_login network tok c = (Raise e, c') /\ token c' = token c)
  /\ (is_HTTPException e = false ->
      exists c',
        static_login network tok c = (Raise e, c') /\ token c' = Some tok).
Proof.
  intros Hinfo Hself.
  assert (Hold : token c1 = token c).
  { pose proof (keeps_get_api_info c) as Hk. rewrite Hinfo in Hk. apply Hk. }
  assert (Hnew : token c3 = Some tok).
  { pose proof (keeps_fetch_self (set_token (Some tok) (set_api_info info c1)))
      as Hk. rewrite Hself in Hk. apply Hk. }
  unfold static_login, bind, try_except, modify, get. rewrite Hinfo. simpl.
  rewrite Hself. repeat split.
  - intros -> ->. eexists. split; [reflexivity|]. simpl. exact Hold.
  - intros -> ->. eexists. split; [reflexivity|]. simpl. exact Hold.
  - intros ->. eexists. split; [reflexivity|]. exact Hnew.
Qed.

(** ** Message payloads *)

Lemma bind_ok {A B} (m : M A) (k : A -> M B) c b c' :
  bind m k c = (Ok b, c') ->
  exists a c1, m c = (Ok a, c1) /\ k a c1 = (Ok b, c').
Proof.
  unfold bind. destruct (m c) as [[a|e] c1]; [|discriminate].
  intros Hk. exists a, c1. auto.
Qed.

Lemma alist_get_set {A} k k' (v : A) d :
  alist_get k (alist_set k' v d)
  = if String.eqb k k' then Some v else alist_get k d.
Proof.
  induction d as [|[k0 a] d IH]; simpl.
  - reflexivity.
  - destruct (String.eqb_spec k' k0) as [->|Hne]; simpl.
    + destruct (String.eqb k k0); reflexivity.
    + rewrite IH. destruct (String.eqb_spec k k0) as [->|]; [|reflexivity].
      destruct (String.eqb_spec k0 k'); [congruence|reflexivity].
Qed.

Lemma upload_each_length files ids c ids' c' :
  upload_each network files ids c = (Ok ids', c') ->
  length ids' = (length ids + length files)%nat.
Proof.
  revert ids c. induction files as [|f files IH]; simpl; intros ids c Hup.
  - injection Hup as <- _. lia.
  - apply bind_ok in Hup as (data & c1 & _ & Hup).
    apply bind_ok in Hup as (id & c2 & _ & Hup).
    apply IH in Hup. rewrite length_app in Hup. simpl in Hup. lia.
Qed.

Lemma upload_each_uploaded_ids files acc c ids' c' :
  upload_each network files acc c = (Ok ids', c') ->
  exists ids, ids' = (acc ++ ids)%list /\ uploaded_ids network files c ids c'.
Proof.
  revert acc c. induction files as [|f files IH]; simpl; intros acc c Hup.
  - injection Hup as <- <-. exists []. rewrite app_nil_r. auto.
  - apply bind_ok in Hup as (data & c1 & Hf & Hup).
    apply bind_ok in Hup as (id & c2 & Hid & Hup).
    unfold lift in Hid. injection Hid as Hid <-.
    apply IH in Hup as (ids & -> & Hrest).
    exists (id :: ids). rewrite <- app_assoc. split; [reflexivity|].
    simpl. exists data, c1. auto.
Qed.

(** C5, as the code has it. When [send_message] gets as far as its request,
    the payload holds: under [embeds], the list [embeds] as given when it
    is truthy, else the one-element list of a truthy [embed]; under
    [replies], the same with [replies] and [replie]; under [attachments],
    not the files, but the ids the file host returned for them: those of
    the files of a non-empty [attachments], in order, uploaded after the
    single [attachment] if there is one, else the id of the single
    [attachment]. *)
Theorem send_message_payload_spec content embed embeds attachment attachments
    replie replies masquerade c payload c' :
  send_message_payload network content embed embeds attachment attachments
    replie replies masquerade c = (Ok payload, c') ->
  (truthy embeds = true -> alist_get "embeds" payload = Some embeds)
  /\ (truthy embeds = false -> truthy embed = true ->
      alist_get "embeds" payload = Some (PList [embed]))
  /\ (truthy replies = true -> alist_get "replies" payload = Some replies)
  /\ (truthy replies = false -> truthy replie = true ->
      alist_get "replies" payload = Some (PList [replie]))
  /\ (forall f fs,
        attachments = Some (f :: fs) ->
        exists c1 ids,
          singular_uploaded network attachment c c1
          /\ uploaded_ids network (f :: fs) c1 ids c'
          /\ length ids = length (f :: fs)
          /\ alist_get "attachments" payload = Some (PList ids))
  /\ (forall f,
        attachment = Some f ->
        attachments = None \/ attachments = Some [] ->
        exists data id c1,
          upload_file network f "attachments" c = (Ok data, c1)
          /\ subscript data "id" = Ok id
          /\ alist_get "attachments" payload = Some (PList [id])).
Proof.
  unfold send_message_payload. intros Hp.
  apply bind_ok in Hp as (p1 & c1 & H1 & Hp).
  apply bind_ok in Hp as (p2 & c2 & H2 & Hp).
  unfold ret in Hp. injection Hp as <- <-.
  set (p0 := if truthy embeds then _ else _) in *.
  assert (Hemb : alist_get "embeds" p2 = alist_get "embeds" p0).
  { clear -H1 H2.
    assert (E1 : alist_get "embeds" p1 = alist_get "embeds" p0).
    { destruct attachment as [f|]; [|injection H1 as <- _; reflexivity].
      apply bind_ok in H1 as (data & c3 & _ & H1).
      apply bind_ok in H1 as (id & c4 & _ & H1).
      injection H1 as <- _. rewrite alist_get_set. reflexivity. }
    rewrite <- E1.
    destruct attachments as [[|f fs]|]; try (injection H2 as <- _; reflexivity).
    apply bind_ok in H2 as (ids & c3 & _ & H2).
    injection H2 as <- _. rewrite alist_get_set. reflexivity. }
  assert (Hrep : alist_get "replies" p2 = None).
  { clear -H1 H2.
    assert (E0 : alist_get "replies" p0 = None).
    { subst p0. destruct (truthy embeds), (truthy embed), (truthy content);
        reflexivity. }
    assert (E1 : alist_get "replies" p1 = None).
    { destruct attachment as [f|]; [|injection H1 as <- _; exact E0].
      apply bind_ok in H1 as (data & c3 & _ & H1).
      apply bind_ok in H1 as (id & c4 & _ & H1).
      injection H1 as <- _. rewrite alist_get_set. exact E0. }
    destruct attachments as [[|f fs]|]; try (injection H2 as <- _; exact E1).
    apply bind_ok in H2 as (ids & c3 & _ & H2).
    injection H2 as <- _. rewrite alist_get_set. exact E1. }
  repeat split.
  - intros He. destruct (truthy masquerade), (truthy replies), (truthy replie);
      rewrite ?alist_get_set; simpl; rewrite Hemb; subst p0; rewrite He;
      rewrite alist_get_set; reflexivity.
  - intros He He'.
    destruct (truthy masquerade), (truthy replies), (truthy replie);
      rewrite ?alist_get_set; simpl; rewrite Hemb; subst p0; rewrite He, He';
      rewrite alist_get_set; reflexivity.
  - intros Hr. rewrite Hr.
    destruct (truthy masquerade); rewrite !alist_get_set; reflexivity.
  - intros Hr Hr'. rewrite Hr, Hr'.
    destruct (truthy masquerade); rewrite !alist_get_set; reflexivity.
  - intros f fs ->.
    apply bind_ok in H2 as (ids & c3 & Hup & H2). injection H2 as <- <-.
    pose proof (upload_each_length _ _ _ _ _ Hup) as Hlen.
    apply upload_each_uploaded_ids in Hup as (ids0 & -> & Hup).
    exists c1, ids0. split; [|split; [exact Hup|split]].
    + destruct attachment as [f0|]; simpl; [|injection H1 as _ <-; reflexivity].
      apply bind_ok in H1 as (data & c4 & Hu & H1).
      apply bind_ok in H1 as (id & c5 & Hid & H1).
      unfold lift in Hid. injection Hid as Hid <-. injection H1 as _ <-.
      exists data, id. auto.
    + exact Hlen.
    + destruct (truthy masquerade), (truthy replies), (truthy replie);
        rewrite !alist_get_set; reflexivity.
  - intros f -> Hnone.
    apply bind_ok in H1 as (data & c4 & Hu & H1).
    apply bind_ok in H1 as (id & c5 & Hid & H1).
    unfold lift in Hid. injection Hid as Hid <-. injection H1 as <- <-.
    exists data, id, c4. split; [exact Hu|]. split; [exact Hid|].
    assert (E2 : p2 = alist_set "attachments" (PList [id]) p0)
      by (destruct Hnone as [->| ->]; injection H2 as <- _; reflexivity).
    rewrite E2.
    destruct (truthy masquerade), (truthy replies), (truthy replie);
      rewrite !alist_get_set; reflexivity.
Qed.

(** The payload is what [send_message] hands to [request] as [json]. *)
Lemma send_message_request channel_id content embed embeds attachment
    attachments replie replies masquerade c r payload c1 :
  Route_init "POST" "/channels/{channel_id}/messages"
    [("channel_id", channel_id)] = Ok r ->
  send_message_payload network content embed embeds attachment attachments
    replie replies masquerade c = (Ok payload, c1) ->
  send_message network channel_id content embed embeds attachment attachments
    replie replies masquerade c
  = request network r None (Some (PDict payload)) c1.
Proof.
  intros Hr Hp. unfold send_message, bind, lift. rewrite Hr, Hp. reflexivity.
Qed.

End Dispatch.

(** ** The client at work *)
Section Runs.
Import Demo.


Lemma server_errors_exhaust_witness :
  exists r data c' evs,
    bad_gateway (4 + sent fresh)%nat = Responded r
    /\ json_or_text r = Ok data
    /\ request bad_gateway root None None fresh
       = (Raise (RevoltServerError r data), c')
    /\ trace c' = (trace fresh ++ evs)%list
    /\ exchanges evs = 5%nat
    /\ sleeps evs = [PInt 1; PInt 3; PInt 5; PInt 7; PInt 9]
    /\ (exists evs',
          evs = (evs' ++ [EvSleep (PInt 9); EvRelease (bucket root)])%list)
    /\ sent c' = (5 + sent fresh)%nat.
Proof.
  apply (server_errors_exhaust bad_gateway root None None fresh).
  intros i _. exists (text_response 502 "Bad Gateway"), (PStr "Bad Gateway").
  split; [reflexivity|]. split; [right; left; reflexivity|reflexivity].
Defined.

(** C2 as stated fails: against a server that always answers 502, the
    client sleeps five times, the fifth time for 9 seconds after its last
    request, before it raises. *)
Lemma five_sleeps_not_four :
  exists r data c',
    request bad_gateway root None None fresh
    = (Raise (RevoltServerError r data), c')
    /\ exchanges (trace c') = 5%nat
    /\ sleeps (trace c') = [PInt 1; PInt 3; PInt 5; PInt 7; PInt 9]
    /\ sleeps (trace c') <> [PInt 1; PInt 3; PInt 5; PInt 7]
    /\ length (sleeps (trace c')) <> 4%nat.
Proof.
  eexists. eexists. eexists. split; [vm_compute; reflexivity|].
  simpl. repeat split; discriminate.
Qed.

Lemma static_login_failure_witness :
  (exists c',
     static_login unauthorized_server new_token returning
     = (Raise (LoginFailure "Improper token has been passed."
                 (HTTPException (text_response 401 "Unauthorized")
                    (PStr "Unauthorized"))), c')
     /\ token c' = token returning)
  /\ (exists c',
        static_login bad_request_server new_token returning
        = (Raise (HTTPException (text_response 400 "Bad Request")
                    (PStr "Bad Request")), c')
        /\ token c' = token returning)
  /\ (exists c',
        static_login unreachable_server new_token returning
        = (Raise (OSError (Some 111)), c')
        /\ token c' = Some new_token).
Proof.
  split; [|split].
  - eapply (fun info c1 e c3 H1 H2 =>
              proj1 (static_login_failure unauthorized_server new_token
                       returning info c1 e c3 H1 H2));
      [vm_compute; reflexivity | vm_compute; reflexivity
      | reflexivity | reflexivity].
  - eapply (fun info c1 e c3 H1 H2 =>
              proj1 (proj2 (static_login_failure bad_request_server new_token
                              returning info c1 e c3 H1 H2)));
      [vm_compute; reflexivity | vm_compute; reflexivity
      | reflexivity | reflexivity].
  - eapply (fun info c1 e c3 H1 H2 =>
              proj2 (proj2 (static_login_failure unreachable_server new_token
                              returning info c1 e c3 H1 H2)));
      [vm_compute; reflexivity | vm_compute; reflexivity | reflexivity].
Defined.

(** C3 as stated fails: a login that is answered with 400 fails with that
    [HTTPException], not a 401, and yet the credential held before is put
    back instead of the attempted one. *)
Lemma login_restores_on_400 :
  exists r data c',
    static_login bad_request_server new_token returning
    = (Raise (HTTPException r data), c')
    /\ status r = 400
    /\ token c' = Some old_token
    /\ token c' <> Some new_token.
Proof.
  eexists. eexists. eexists. split; [vm_compute; reflexivity|].
  simpl. repeat split. discriminate.
Qed.

Lemma bucket_spec_witness :
  exists r,
    Route_init "GET" "/x/{channel_id}"
      [("channel_id", PStr "C"); ("server_id", PStr "S")] = Ok r
    /\ url r = "https://api.revolt.chat/x/C"
    /\ bucket r = "C:S:/x/{channel_id}"
    /\ bucket root = "None:None:/".
Proof.
  exists {| path := "/x/{channel_id}"; method := "GET";
            url := "https://api.revolt.chat/x/C";
            channel_id := PStr "C"; server_id := PStr "S" |}.
  split; [reflexivity|]. split; [reflexivity|]. split; [|reflexivity].
  refine (proj2 (bucket_spec "GET" "/x/{channel_id}"
                   [("channel_id", PStr "C"); ("server_id", PStr "S")] _ _)
            _ _ _); reflexivity.
Defined.

Lemma send_message_payload_spec_witness :
  exists payload c',
    send_message_payload (file_host ["a"; "b"; "c"]) (PStr "hi")
      one (PList [two]) (Some (picture "a.png"))
      (Some [picture "b.png"; picture "c.png"]) PNone PNone PNone logged_in
    = (Ok payload, c')
    /\ alist_get "attachments" payload = Some (PList [PStr "b"; PStr "c"])
    /\ alist_get "embeds" payload = Some (PList [two])
    /\ exists c1 ids,
         singular_uploaded (file_host ["a"; "b"; "c"])
           (Some (picture "a.png")) logged_in c1
         /\ uploaded_ids (file_host ["a"; "b"; "c"])
              [picture "b.png"; picture "c.png"] c1 ids c'
         /\ length ids = 2%nat
         /\ alist_get "attachments" payload = Some (PList ids).
Proof.
  eexists. eexists. split; [vm_compute; reflexivity|].
  split; [reflexivity|].
  match goal with
  | |- alist_get _ ?p = _ /\ _ =>
      pose proof (send_message_payload_spec (file_host ["a"; "b"; "c"])
                    (PStr "hi") one (PList [two]) (Some (picture "a.png"))
                    (Some [picture "b.png"; picture "c.png"]) PNone PNone
                    PNone logged_in p _ eq_refl)
        as (Hembeds & _ & _ & _ & Hfiles & _)
  end.
  split; [exact (Hembeds eq_refl)|].
  exact (Hfiles (picture "b.png") [picture "c.png"] eq_refl).
Defined.

(** C5 as stated fails for attachments: the payload of one and the same
    call holds what the file host answered, ["b"] from one host and ["c"]
    from another, and in neither case the list of files that was passed. *)
Lemma attachments_not_verbatim :
  exists p1 c1 p2 c2,
    send_message_payload (file_host ["a"; "b"]) PNone PNone PNone
      (Some (picture "a.png")) (Some [picture "b.png"]) PNone PNone PNone
      logged_in = (Ok p1, c1)
    /\ send_message_payload (file_host ["a"; "c"]) PNone PNone PNone
         (Some (picture "a.png")) (Some [picture "b.png"]) PNone PNone PNone
         logged_in = (Ok p2, c2)
    /\ alist_get "attachments" p1 = Some (PList [PStr "b"])
    /\ alist_get "attachments" p2 = Some (PList [PStr "c"])
    /\ alist_get "attachments" p1 <> alist_get "attachments" p2.
Proof.
  eexists. eexists. eexists. eexists.
  split; [vm_compute; reflexivity|]. split; [vm_compute; reflexivity|].
  simpl. repeat split. discriminate.
Qed.

(** C9: a file host that answers with status 600 makes [upload_file] raise
    [RevoltServerError], where every status outside 400 and 500 to 599 is
    to give the decoded body back. *)
Theorem upload_file_status_600 :
  exists c',
    upload_file (script [json_response 600 "{'id': 'a'}"]) (picture "a.png")
      "attachments" logged_in
    = (Raise (RevoltServerError (json_response 600 "{'id': 'a'}")
                (PDict [("id", PStr "a")])), c')
    /\ trace c'
       = [upload_event logged_in (PStr "https://autumn.revolt.chat")
            (picture "a.png") "attachments"].
Proof.
  eexists. split; [vm_compute; reflexivity|]. reflexivity.
Qed.

End Runs.
End HttpFacts.

(** * More about the flag sets *)
Module FlagsMore.
Import Flags FlagsFacts.

(** ** Writes to any mask *)

Lemma set_flag_write self o b : _set_flag self o (PBool b) = Ok (write self o b).
Proof. destruct b; reflexivity. Qed.

Lemma testbit_write self o b n :
  Z.testbit (value (write self o b)) n
  = if Z.testbit o n then b else Z.testbit (value self) n.
Proof.
  unfold write. simpl.
  destruct (Z.neg_nonneg_cases n) as [Hn|Hn].
  - rewrite !Z.testbit_neg_r by assumption. reflexivity.
  - destruct b.
    + rewrite Z.lor_spec. destruct (Z.testbit o n);
        [apply orb_true_r | apply orb_false_r].
    + rewrite Z.land_spec, Z.lnot_spec by assumption.
      destruct (Z.testbit o n); [apply andb_false_r | apply andb_true_r].
Qed.

(** Of two writes to one flag, whatever bits its mask has, the second is the
    one that counts. *)
Theorem set_flag_last_wins self o b1 b2 :
  rbind (_set_flag self o (PBool b1)) (fun s => _set_flag s o (PBool b2))
  = _set_flag self o (PBool b2).
Proof.
  rewrite !set_flag_write. cbn [rbind]. rewrite set_flag_write.
  f_equal.
  assert (Hv : value (write (write self o b1) o b2) = value (write self o b2)).
  { apply Z.bits_inj'. intros n _. rewrite !testbit_write.
    destruct (Z.testbit o n); reflexivity. }
  unfold write in *. simpl in *. rewrite Hv. reflexivity.
Qed.

(** A flag reads back what was written to it, for any mask but the empty
    one: a flag declared with the value 0 reads [True] whatever was
    written. *)
Theorem has_flag_after_set self o b :
  exists s, _set_flag self o (PBool b) = Ok s
            /\ _has_flag s o = b || (o =? 0).
Proof.
  exists (write self o b). split; [apply set_flag_write|].
  unfold _has_flag, write. simpl. destruct b; simpl.
  - apply Z.eqb_eq, Z.bits_inj'. intros n _.
    rewrite Z.land_spec, Z.lor_spec.
    destruct (Z.testbit o n), (Z.testbit (value self) n); reflexivity.
  - replace (Z.land (Z.land (value self) (Z.lnot o)) o) with 0.
    + rewrite Z.eqb_sym. reflexivity.
    + symmetry. apply Z.bits_inj'. intros n Hn.
      rewrite !Z.land_spec, Z.lnot_spec, Z.bits_0 by assumption.
      destruct (Z.testbit o n), (Z.testbit (value self) n); reflexivity.
Qed.

(** ** The decorator at its edges *)

Lemma declared_nothing d :
  Forall (fun kv => kv.2 = AOther) d -> declared d = [].
Proof.
  induction 1 as [|[k a] d Ha _ IH]; [reflexivity|].
  simpl in *. subst a. exact IH.
Qed.

(** An inverted flag set that declares no flag cannot be defined: the
    decorator fails on the empty [max]. *)
Theorem inverted_needs_a_flag name d :
  Forall (fun kv => kv.2 = AOther) d ->
  fill_with_flags true name d
  = Raise (ValueError "max() arg is an empty sequence").
Proof.
  intros Hd. unfold fill_with_flags, collect_flags.
  rewrite (declared_nothing d Hd). simpl. rewrite map_to_list_empty.
  reflexivity.
Qed.

Lemma inverted_needs_a_flag_witness :
  fill_with_flags true "Empty" [("__module__", AOther); ("__doc__", AOther)]
  = Raise (ValueError "max() arg is an empty sequence").
Proof.
  apply (inverted_needs_a_flag "Empty"
           [("__module__", AOther); ("__doc__", AOther)]).
  repeat constructor.
Defined.

Lemma py_max_values d top :
  NoDup d.*1 -> largest_declared d top ->
  py_max (map_to_list (collect_flags d)).*2 = Ok top.
Proof.
  intros Hnd [[tname Htop] Hub].
  assert (Hin : top ∈ (map_to_list (collect_flags d)).*2).
  { apply list_elem_of_fmap. exists (tname, top). split; [reflexivity|].
    apply elem_of_map_to_list, collect_flags_lookup; assumption. }
  destruct ((map_to_list (collect_flags d)).*2) as [|x xs] eqn:Hvals;
    [apply elem_of_nil in Hin; contradiction|].
  simpl. destruct (foldl_max_spec xs x) as [Hmem Hmax].
  assert (Hle : foldl Z.max x xs <= top).
  { rewrite <- Hvals in Hmem.
    apply list_elem_of_fmap in Hmem as [[k v] [-> Hkv]].
    apply elem_of_map_to_list, collect_flags_lookup in Hkv; [|exact Hnd].
    apply (Hub k {| flag := v |}), Hkv. }
  apply Hmax in Hin. f_equal. simpl in *. lia.
Qed.

(** In an inverted flag set whose largest declared value is positive, every
    flag declared with a value that is not negative reads [True] on a
    freshly constructed instance. *)
Theorem inverted_default_all_set name d top cls :
  NoDup d.*1 -> largest_declared d top -> 0 < top ->
  fill_with_flags true name d = Ok cls ->
  exists self,
    __init__ cls [] = Ok self
    /\ forall n fv, (n, AFlag fv) ∈ d -> 0 <= flag fv ->
                    getattr self n = Ok true.
Proof.
  intros Hnd Hlargest Hpos Hfill. exists (blank cls). split; [reflexivity|].
  intros n fv Hin Hnn.
  assert (Hle : flag fv <= top) by (apply (proj2 Hlargest n fv Hin)).
  unfold fill_with_flags in Hfill.
  rewrite (py_max_values d top Hnd Hlargest) in Hfill. simpl in Hfill.
  injection Hfill as <-. unfold getattr, blank. simpl.
  rewrite (alist_get_elem d n (AFlag fv) Hnd Hin).
  unfold flag_get, _has_flag. simpl. f_equal. apply Z.eqb_eq.
  unfold bit_length. rewrite Z.abs_eq by lia.
  destruct (Z.eqb_spec top 0) as [|_]; [lia|].
  pose proof (Z.log2_nonneg top) as Hlog.
  replace (-1 + 2 ^ (Z.log2 top + 1)) with (Z.ones (Z.log2 top + 1))
    by (rewrite Z.ones_equiv; lia).
  rewrite Z.land_comm, Z.land_ones by lia.
  apply Z.mod_small. split; [exact Hnn|].
  pose proof (Z.log2_spec top Hpos) as [_ Hlt].
  replace (Z.log2 top + 1) with (Z.succ (Z.log2 top)) by lia. lia.
Qed.

Lemma inverted_default_all_set_witness :
  exists self,
    __init__ {| cls_name := "Inverted"; cls_dict := inverted_dict;
                VALID_FLAGS := collect_flags inverted_dict;
                DEFAULT_VALUE := 15 |} [] = Ok self
    /\ forall n fv, (n, AFlag fv) ∈ inverted_dict -> 0 <= flag fv ->
                    getattr self n = Ok true.
Proof.
  apply (inverted_default_all_set "Inverted" inverted_dict 8).
  - apply (bool_decide_unpack _). vm_compute. exact I.
  - split.
    + exists "write". apply list_elem_of_In. simpl. tauto.
    + intros k fv Hk. apply list_elem_of_In in Hk. simpl in Hk.
      destruct Hk as [Hk|[Hk|[Hk|[]]]]; inversion Hk; vm_compute; discriminate.
  - lia.
  - reflexivity.
Defined.

(** In a flag set that is not inverted, a freshly constructed instance reads
    every declared flag as [False], but for a flag of value 0, which reads
    [True]. *)
Theorem plain_default_all_clear name d cls :
  NoDup d.*1 ->
  fill_with_flags false name d = Ok cls ->
  exists self,
    __init__ cls [] = Ok self
    /\ forall n fv, (n, AFlag fv) ∈ d ->
                    getattr self n = Ok (flag fv =? 0).
Proof.
  intros Hnd Hfill. exists (blank cls). split; [reflexivity|].
  intros n fv Hin. injection Hfill as <-. unfold getattr, blank. simpl.
  rewrite (alist_get_elem d n (AFlag fv) Hnd Hin).
  unfold flag_get, _has_flag. simpl. rewrite ?Z.land_0_l, Z.eqb_sym.
  reflexivity.
Qed.

Lemma plain_default_all_clear_witness :
  exists self,
    __init__ UserBadges [] = Ok self
    /\ forall n fv, (n, AFlag fv) ∈ UserBadges_dict ->
                    getattr self n = Ok (flag fv =? 0).
Proof.
  apply (plain_default_all_clear "UserBadges" UserBadges_dict UserBadges).
  - apply (bool_decide_unpack _). vm_compute. exact I.
  - reflexivity.
Defined.

(** ** Iteration *)

Lemma iter_declared self :
  __iter__ self
  = map (fun '(name, o) => (name, _has_flag self o))
        (declared (cls_dict (ob_class self))).
Proof.
  unfold __iter__. induction (cls_dict (ob_class self)) as [|[k [fv|]] d IH];
    simpl; [reflexivity| |exact IH].
  rewrite IH. reflexivity.
Qed.

(** Iterating an instance of a decorated class yields the names of
    [VALID_FLAGS], each once and in the order of declaration, with whether
    the instance holds the flag. *)
Theorem iter_agrees_with_VALID_FLAGS inverted name d cls self :
  NoDup d.*1 ->
  fill_with_flags inverted name d = Ok cls ->
  ob_class self = cls ->
  NoDup (__iter__ self).*1
  /\ (__iter__ self).*1 = (declared d).*1
  /\ forall n b,
       (n, b) ∈ __iter__ self
       <-> exists o, VALID_FLAGS cls !! n = Some o /\ b = _has_flag self o.
Proof.
  intros Hnd Hfill Hcls.
  apply fill_with_flags_fields in Hfill as (_ & Hdict & Hvalid).
  assert (Hnames : (__iter__ self).*1 = (declared d).*1).
  { rewrite iter_declared, Hcls, Hdict.
    induction (declared d) as [|[k o] l IH]; simpl; [reflexivity|].
    f_equal. exact IH. }
  split; [rewrite Hnames; apply NoDup_declared, Hnd|].
  split; [exact Hnames|].
  intros n b. rewrite iter_declared, Hcls, Hdict, Hvalid. split.
  - intros Hin. apply list_elem_of_In, in_map_iff in Hin as [[k o] [Heq Hin]].
    injection Heq as <- <-. exists o. split; [|reflexivity].
    apply collect_flags_lookup; [exact Hnd|].
    apply elem_of_declared, list_elem_of_In, Hin.
  - intros [o [Ho ->]]. apply list_elem_of_In, in_map_iff.
    exists (n, o). split; [reflexivity|].
    apply list_elem_of_In, elem_of_declared, collect_flags_lookup; assumption.
Qed.

Lemma iter_agrees_with_VALID_FLAGS_witness :
  NoDup (__iter__ (_from_value UserBadges 17)).*1
  /\ (__iter__ (_from_value UserBadges 17)).*1 = (declared UserBadges_dict).*1
  /\ forall n b,
       (n, b) ∈ __iter__ (_from_value UserBadges 17)
       <-> exists o, VALID_FLAGS UserBadges !! n = Some o
                     /\ b = _has_flag (_from_value UserBadges 17) o.
Proof.
  apply (iter_agrees_with_VALID_FLAGS false "UserBadges" UserBadges_dict).
  - apply (bool_decide_unpack _). vm_compute. exact I.
  - reflexivity.
  - reflexivity.
Defined.

(** ** Construction *)

(** Constructing an instance of a decorated class succeeds exactly when
    every keyword is a declared flag name with a boolean value. *)
Theorem init_succeeds_iff_well_formed inverted name d cls kwargs :
  NoDup d.*1 ->
  fill_with_flags inverted name d = Ok cls ->
  (exists self, __init__ cls kwargs = Ok self) <-> well_formed_kwargs cls kwargs.
Proof.
  intros Hnd Hfill.
  pose proof (fill_with_flags_consistent _ _ _ _ Hnd Hfill) as Hcons.
  split.
  - intros [a Ha]. unfold __init__ in Ha. fold (blank cls) in Ha.
    assert (Hcls : ob_class (blank cls) = cls) by reflexivity.
    revert Ha Hcls. generalize (blank cls).
    induction kwargs as [|[k v] kwargs IH]; intros self Ha Hcls.
    + constructor.
    + apply init_loop_cons_inv in Ha
        as (z & fv & b & s1 & Hv & _ & -> & Hs & Ha).
      constructor.
      * rewrite <- Hcls. split; [exists z; exact Hv|exists b; reflexivity].
      * apply (IH s1 Ha). rewrite (set_flag_class _ _ _ _ Hs). exact Hcls.
  - intros Hwf.
    destruct (init_loop_well_formed kwargs (blank cls) Hcons Hwf) as [a [Ha _]].
    exists a. exact Ha.
Qed.

Lemma init_succeeds_iff_well_formed_witness :
  (exists self, __init__ UserBadges [("paw", PBool true); ("founder", PNone)]
                = Ok self)
  <-> well_formed_kwargs UserBadges [("paw", PBool true); ("founder", PNone)].
Proof.
  apply (init_succeeds_iff_well_formed false "UserBadges" UserBadges_dict).
  - apply (bool_decide_unpack _). vm_compute. exact I.
  - reflexivity.
Defined.

(** ** Rebuilding an instance from its iteration *)

Lemma alist_get_In {A} (d : list (string * A)) k a :
  alist_get k d = Some a -> (k, a) ∈ d.
Proof.
  induction d as [|[k' a'] d IH]; simpl; [discriminate|].
  destruct (String.eqb_spec k k') as [->|_].
  - intros [= ->]. left.
  - intros Hd. right. auto.
Qed.

Lemma kwargs_of_declared self :
  kwargs_of self
  = map (fun '(name, o) => (name, PBool (_has_flag self o)))
        (declared (cls_dict (ob_class self))).
Proof.
  unfold kwargs_of. rewrite iter_declared, map_map.
  apply map_ext. intros [n o]. reflexivity.
Qed.

(** Copying the flags of [x] into [s], one declared single bit at a time. *)
Lemma init_loop_copy cls x (l : list (string * Z)) s :
  consistent cls -> ob_class s = cls ->
  (forall n o, (n, o) ∈ l ->
     VALID_FLAGS cls !! n = Some o /\ exists p, 0 <= p /\ o = Z.shiftl 1 p) ->
  exists a,
    init_loop (map (fun '(name, o) => (name, PBool (_has_flag x o))) l) s = Ok a
    /\ ob_class a = cls
    /\ forall m, Z.testbit (value a) m
                 = if existsb (fun '(_, o) => Z.testbit o m) l
                   then Z.testbit (value x) m else Z.testbit (value s) m.
Proof.
  intros Hcons. revert s. induction l as [|[n o] l IH]; intros s Hcls Hl.
  - exists s. simpl. auto.
  - destruct (Hl n o) as [Hv [p [Hp ->]]]; [left|].
    destruct (IH (write s (Z.shiftl 1 p) (_has_flag x (Z.shiftl 1 p))))
      as (a & Ha & Hca & Hbits).
    { exact Hcls. }
    { intros n' o' Hin. apply Hl. right. exact Hin. }
    exists a. split; [|split; [exact Hca|]].
    + cbn [map].
      rewrite (init_loop_cons_intro s n (Z.shiftl 1 p)
                 {| flag := Z.shiftl 1 p |} _
                 (write s (Z.shiftl 1 p) (_has_flag x (Z.shiftl 1 p))));
        [exact Ha|rewrite Hcls; exact Hv| |apply set_flag_write].
      rewrite Hcls. apply Hcons, Hv.
    + intros m. rewrite Hbits. cbn [existsb].
      destruct (existsb _ l); [rewrite orb_true_r; reflexivity|].
      rewrite orb_false_r, testbit_write, has_flag_testbit by exact Hp.
      destruct (Z.neg_nonneg_cases m) as [Hm|Hm].
      * rewrite !Z.testbit_neg_r by assumption. reflexivity.
      * rewrite testbit_shiftl_1 by exact Hp.
        destruct (Z.eqb_spec p m) as [->|]; reflexivity.
Qed.

(** In a decorated class whose flags are single bits, building an instance
    from the pairs that iterating [x] yields gives, bit by bit, the bit of
    [x] where a flag is declared and the bit of the default value
    elsewhere. *)
Theorem rebuilt_from_iteration inverted name d cls x :
  NoDup d.*1 -> single_bits d ->
  fill_with_flags inverted name d = Ok cls ->
  ob_class x = cls ->
  exists a,
    __init__ cls (kwargs_of x) = Ok a
    /\ ob_class a = cls
    /\ forall m, Z.testbit (value a) m
                 = if declared_bit d m then Z.testbit (value x) m
                   else Z.testbit (DEFAULT_VALUE cls) m.
Proof.
  intros Hnd Hsingle Hfill Hx.
  pose proof (fill_with_flags_consistent _ _ _ _ Hnd Hfill) as Hcons.
  apply fill_with_flags_fields in Hfill as (_ & Hdict & Hvalid).
  rewrite kwargs_of_declared, Hx, Hdict. unfold __init__, declared_bit.
  apply (init_loop_copy cls x (declared d)
           {| ob_class := cls; value := DEFAULT_VALUE cls |} Hcons eq_refl).
  intros n o Hin. apply elem_of_declared in Hin. split.
  - rewrite Hvalid. apply collect_flags_lookup; assumption.
  - apply (Hsingle n {| flag := o |} Hin).
Qed.

Lemma UserBadges_single_bits : single_bits UserBadges_dict.
Proof.
  intros n fv Hin. apply list_elem_of_In in Hin. unfold UserBadges_dict in Hin.
  cbn [In] in Hin.
  exists (Z.log2 (flag fv)). split; [apply Z.log2_nonneg|].
  repeat (destruct Hin as [Hin|Hin]; [inversion Hin; reflexivity|]).
  destruct Hin.
Qed.

Lemma UserBadges_declared_bit m : declared_bit UserBadges_dict m = Z.testbit 1023 m.
Proof.
  destruct (Z.neg_nonneg_cases m) as [Hm|Hm].
  - rewrite Z.testbit_neg_r by assumption.
    unfold declared_bit, UserBadges_dict.
    cbn [declared flat_map app existsb flag].
    rewrite !Z.testbit_neg_r by assumption. reflexivity.
  - unfold declared_bit, UserBadges_dict.
    cbn [declared flat_map app existsb flag].
    rewrite !testbit_shiftl_1 by lia.
    repeat match goal with
           | |- context [?i =? m] =>
               destruct (Z.eqb_spec i m) as [<-|?]; [reflexivity|]
           end.
    simpl. symmetry. apply (Z.ones_spec_high 10). lia.
Qed.

Lemma rebuilt_from_iteration_aux v :
  exists a,
    __init__ UserBadges (kwargs_of (_from_value UserBadges v)) = Ok a
    /\ ob_class a = UserBadges
    /\ forall m, Z.testbit (value a) m
                 = if declared_bit UserBadges_dict m then Z.testbit v m
                   else Z.testbit 0 m.
Proof.
  pose proof (UserBadges_consistent) as Hcons.
  rewrite kwargs_of_declared. unfold __init__, declared_bit.
  apply (init_loop_copy UserBadges (_from_value UserBadges v)
           (declared UserBadges_dict)
           {| ob_class := UserBadges; value := 0 |} Hcons eq_refl).
  intros n o Hin. apply elem_of_declared in Hin. split.
  - apply collect_flags_lookup; [apply NoDup_UserBadges_dict|exact Hin].
  - apply (UserBadges_single_bits n {| flag := o |} Hin).
Qed.

(** Decoding a raw integer as [UserBadges] and building a new instance from
    the pairs its iteration yields gives the integer cut down to the ten
    badge bits: a raw value from 0 to 1023 comes back as it was, and bits
    beyond the ten badges, or a sign, are lost. *)
Theorem UserBadges_round_trip v :
  __init__ UserBadges (kwargs_of (_from_value UserBadges v))
  = Ok (_from_value UserBadges (Z.land v 1023))
  /\ (0 <= v < 1024 ->
      __init__ UserBadges (kwargs_of (_from_value UserBadges v))
      = Ok (_from_value UserBadges v)).
Proof.
  assert (Hmain : __init__ UserBadges (kwargs_of (_from_value UserBadges v))
                  = Ok (_from_value UserBadges (Z.land v 1023))).
  { destruct (rebuilt_from_iteration_aux v) as (a & Ha & Hcls & Hbits).
    rewrite Ha. f_equal. destruct a as [acls aval]. simpl in *. subst acls.
    unfold _from_value. f_equal. apply Z.bits_inj'. intros m _.
    rewrite Hbits, UserBadges_declared_bit, Z.land_spec.
    destruct (Z.testbit 1023 m);
      [rewrite andb_true_r | rewrite andb_false_r, Z.bits_0]; reflexivity. }
  split; [exact Hmain|].
  intros Hv. rewrite Hmain. do 2 f_equal.
  change 1023 with (Z.ones 10). rewrite Z.land_ones by lia.
  apply Z.mod_small. change (2 ^ 10) with 1024. lia.
Qed.

Lemma UserBadges_round_trip_witness :
  __init__ UserBadges (kwargs_of (_from_value UserBadges 529))
  = Ok (_from_value UserBadges 529).
Proof. apply (proj2 (UserBadges_round_trip 529)). lia. Defined.

Lemma rebuilt_from_iteration_witness :
  exists a,
    __init__ UserBadges (kwargs_of (_from_value UserBadges (-1))) = Ok a
    /\ ob_class a = UserBadges
    /\ forall m, Z.testbit (value a) m
                 = if declared_bit UserBadges_dict m
                   then Z.testbit (value (_from_value UserBadges (-1))) m
                   else Z.testbit (DEFAULT_VALUE UserBadges) m.
Proof.
  apply (rebuilt_from_iteration false "UserBadges" UserBadges_dict UserBadges
           (_from_value UserBadges (-1))).
  - apply (bool_decide_unpack _). vm_compute. exact I.
  - apply UserBadges_single_bits.
  - reflexivity.
  - reflexivity.
Defined.

(** ** Reading a UserBadges *)

(** The badge declared in the i-th place reads the bit [i] of the backing
    integer, whatever integer the instance was decoded from. *)
Theorem from_value_reads_bits v i name o :
  declared UserBadges_dict !! i = Some (name, o) ->
  o = Z.shiftl 1 (Z.of_nat i)
  /\ getattr (_from_value UserBadges v) name = Ok (Z.testbit v (Z.of_nat i)).
Proof.
  intros Hi.
  do 10 (destruct i as [|i];
         [injection Hi as <- <-; split; [reflexivity|];
          unfold getattr; cbn [ob_class _from_value UserBadges cls_dict];
          cbn [alist_get UserBadges_dict String.eqb Ascii.eqb Bool.eqb];
          unfold flag_get; cbn [flag];
          rewrite has_flag_testbit by lia; reflexivity|]).
  discriminate.
Qed.

Lemma from_value_reads_bits_witness :
  Z.shiftl 1 4 = Z.shiftl 1 (Z.of_nat 4)
  /\ getattr (_from_value UserBadges (-1)) "founder"
     = Ok (Z.testbit (-1) (Z.of_nat 4)).
Proof. apply (from_value_reads_bits (-1) 4 "founder"). reflexivity. Defined.

Lemma step_read s k fv b s1 :
  ob_class s = UserBadges ->
  alist_get k UserBadges_dict = Some (AFlag fv) ->
  _set_flag s (flag fv) (PBool b) = Ok s1 ->
  getattr s1 k = Ok b.
Proof.
  intros Hcls Hk Hs.
  destruct (UserBadges_single_bits k fv (alist_get_In _ _ _ Hk)) as [p [Hp Hfv]].
  unfold getattr. rewrite (set_flag_class _ _ _ _ Hs), Hcls.
  change (cls_dict UserBadges) with UserBadges_dict.
  rewrite Hk. unfold flag_get. rewrite Hfv in *.
  rewrite has_flag_testbit, (testbit_set _ _ _ _ p Hs), testbit_shiftl_1,
    Z.eqb_refl by exact Hp.
  f_equal. destruct b; [apply orb_true_r|apply andb_false_r].
Qed.

Lemma step_frame s k fv b s1 name fv' :
  ob_class s = UserBadges ->
  alist_get k UserBadges_dict = Some (AFlag fv) ->
  alist_get name UserBadges_dict = Some (AFlag fv') ->
  name <> k ->
  _set_flag s (flag fv) (PBool b) = Ok s1 ->
  getattr s1 name = getattr s name.
Proof.
  intros Hcls Hk Hname Hne Hs.
  destruct (UserBadges_single_bits k fv (alist_get_In _ _ _ Hk)) as [p [Hp Hfv]].
  destruct (UserBadges_single_bits name fv' (alist_get_In _ _ _ Hname))
    as [q [Hq Hfv']].
  pose proof (UserBadges_disjoint name k fv' fv Hne Hname Hk) as Hdis.
  assert (Hpq : p <> q).
  { intros ->. rewrite Hfv, Hfv', Z.land_diag in Hdis.
    exact (shiftl_1_nonzero q Hq Hdis). }
  unfold getattr. rewrite (set_flag_class _ _ _ _ Hs), Hcls.
  change (cls_dict UserBadges) with UserBadges_dict.
  rewrite Hname. unfold flag_get. rewrite Hfv, Hfv' in *.
  rewrite !has_flag_testbit, (testbit_set _ _ _ _ q Hs), testbit_shiftl_1
    by assumption.
  destruct (Z.eqb_spec p q); [contradiction|].
  f_equal. destruct b; [apply orb_false_r|apply andb_true_r].
Qed.

Lemma init_loop_reads kwargs s a :
  NoDup kwargs.*1 -> ob_class s = UserBadges ->
  init_loop kwargs s = Ok a ->
  (forall name b, (name, PBool b) ∈ kwargs -> getattr a name = Ok b)
  /\ (forall name fv,
        alist_get name UserBadges_dict = Some (AFlag fv) ->
        name ∉ kwargs.*1 -> getattr a name = getattr s name).
Proof.
  revert s. induction kwargs as [|[k v] l IH]; intros s Hnd Hcls Hl.
  - injection Hl as <-. split; [|reflexivity].
    intros name b Hin. apply elem_of_nil in Hin. contradiction.
  - simpl in Hnd. apply NoDup_cons in Hnd as [Hk Hnd].
    apply init_loop_cons_inv in Hl
      as (z & fv & b & s1 & Hv & Hd & -> & Hs & Hl).
    rewrite Hcls in Hd. change (cls_dict UserBadges) with UserBadges_dict in Hd.
    destruct (IH s1 Hnd) as [Hread Hframe];
      [rewrite (set_flag_class _ _ _ _ Hs); exact Hcls|exact Hl|].
    split.
    + intros name b' Hin. apply elem_of_cons in Hin as [[= -> ->]|Hin].
      * rewrite (Hframe k fv Hd Hk). exact (step_read s k fv b s1 Hcls Hd Hs).
      * apply Hread, Hin.
    + intros name fv' Hname Hnot.
      assert (Hne : name <> k) by (intros ->; apply Hnot; left).
      rewrite (Hframe name fv' Hname); [|intros Hin; apply Hnot; right; exact Hin].
      exact (step_frame s k fv b s1 name fv' Hcls Hd Hname Hne Hs).
Qed.

(** A [UserBadges] built from keyword overrides reads back every override,
    and reads [False] for every badge that was not named. *)
Theorem UserBadges_reads_back kwargs a :
  NoDup kwargs.*1 ->
  __init__ UserBadges kwargs = Ok a ->
  (forall name b, (name, PBool b) ∈ kwargs -> getattr a name = Ok b)
  /\ (forall name fv,
        (name, AFlag fv) ∈ UserBadges_dict ->
        name ∉ kwargs.*1 -> getattr a name = Ok false).
Proof.
  intros Hnd Ha.
  destruct (init_loop_reads kwargs (blank UserBadges) a Hnd eq_refl Ha)
    as [Hread Hframe].
  split; [exact Hread|].
  intros name fv Hin Hnot.
  pose proof (alist_get_elem _ _ _ NoDup_UserBadges_dict Hin) as Hname.
  rewrite (Hframe name fv Hname Hnot).
  destruct (UserBadges_single_bits name fv Hin) as [p [Hp Hfv]].
  unfold getattr.
  change (cls_dict (ob_class (blank UserBadges))) with UserBadges_dict.
  rewrite Hname. unfold flag_get.
  rewrite Hfv, has_flag_testbit by exact Hp. apply f_equal, Z.bits_0.
Qed.

Lemma UserBadges_reads_back_witness :
  (forall name b,
     (name, PBool b) ∈ [("paw", PBool true); ("founder", PBool false)] ->
     getattr (_from_value UserBadges 128) name = Ok b)
  /\ (forall name fv,
        (name, AFlag fv) ∈ UserBadges_dict ->
        name ∉ [("paw", PBool true); ("founder", PBool false)].*1 ->
        getattr (_from_value UserBadges 128) name = Ok false).
Proof.
  apply (UserBadges_reads_back
           [("paw", PBool true); ("founder", PBool false)]).
  - apply (bool_decide_unpack _). vm_compute. exact I.
  - reflexivity.
Defined.

End FlagsMore.

(** * More about the HTTP client *)
Module HttpMore.
Import Http HttpFacts.

Section Dispatch.
Context `{Runtime}.
Variable network : nat -> outcome.

Lemma global_over_log e c : _global_over (log e c) = _global_over c.
Proof. reflexivity. Qed.

Lemma global_over_count_exchange c :
  _global_over (count_exchange c) = _global_over c.
Proof. reflexivity. Qed.

Lemma global_over_set_global_over b c : _global_over (set_global_over b c) = b.
Proof. reflexivity. Qed.

Create Rewrite HintDb fields.
Hint Rewrite trace_log trace_count_exchange trace_set_global_over
  sent_log sent_count_exchange sent_set_global_over
  global_over_log global_over_count_exchange global_over_set_global_over
  : fields.

(** ** What can be raised where *)

Lemma json_or_text_raises r e :
  json_or_text r = Raise e -> e = ValueError "JSONDecodeError".
Proof.
  unfold json_or_text. destruct (headers r !! "content-type") as [ct|];
    [|discriminate].
  destruct (String.eqb ct "application/json"); [|discriminate].
  destruct (json_loads (text r)); [discriminate|]. intros [= <-]. reflexivity.
Qed.

Lemma subscript_raises v k e :
  subscript v k = Raise e -> class_of e = CKeyError \/ class_of e = CTypeError.
Proof.
  destruct v as [| | | | | |d]; simpl; try (intros [= <-]; auto).
  destruct (alist_get k d); [discriminate|]. intros [= <-]. auto.
Qed.

Lemma py_get_raises v k dflt e :
  py_get v k dflt = Raise e -> class_of e = CAttributeError.
Proof. destruct v; simpl; try discriminate; intros [= <-]; reflexivity. Qed.

(** ** Every turn of the loop *)

Ltac leaf :=
  cbv beta iota delta [bind when sleep is_number emit modify gate_clear
                       gate_set ret raise lift];
  let Hrun := fresh "Hrun" in
  intros Hrun; injection Hrun as <- <-;
  autorewrite with fields;
  repeat split;
  try solve
    [ eexists; split;
      [rewrite <- ?app_assoc; cbn [app]; reflexivity|];
      split; [reflexivity|cbn; lia]
    | reflexivity | auto | discriminate
    | intros; discriminate
    | intros l [= <-]; left; eexists; eexists; reflexivity
    | intros l [= <-]; right; split; [reflexivity|assumption] ].

(** One turn sends one request, then only sleeps and moves the gate, and
    leaves an open gate open when the delay of a rate limit can be waited
    out; it does not fail with [RuntimeError], and when it asks for another
    turn it either leaves a response behind or has swallowed a connection
    reset before the last turn. *)
Lemma attempt_facts method url hdrs b tries last c res c' :
  attempt network method url hdrs b tries last c = (res, c') ->
  (exists evs,
     trace c' = (trace c ++ EvRequest method url hdrs b :: evs)%list
     /\ forallb quiet evs = true
     /\ (length (sleeps evs) <= 1)%nat)
  /\ sent c' = S (sent c)
  /\ (timed (network (sent c)) ->
      _global_over c = true -> _global_over c' = true)
  /\ class_of_result res <> Some CRuntimeError
  /\ (forall l, res = Ok (Next l) ->
        (exists r d, l = Some (r, d)) \/ (l = last /\ tries < 4)).
Proof.
  unfold attempt, try_except, bind.
  destruct (network (sent c)) as [r|errno] eqn:Hnet.
  - rewrite (session_request_responded _ _ _ _ _ _ _ Hnet). unfold lift.
    destruct (json_or_text r) as [data|e] eqn:Hj.
    + destruct ((status r <? 300) && (200 <=? status r)); [leaf|].
      destruct (status r =? 429) eqn:Hst.
      * destruct (no_via r || is_str data) eqn:Hblock; [leaf|].
        destruct (subscript data "retry_after") as [ra|e] eqn:Hra.
        -- destruct (py_get data "global" (PBool false)) as [g|e] eqn:Hg.
           ++ unfold sleep at 1. destruct (is_number ra) eqn:Hnum.
              ** destruct (truthy g); leaf.
              ** destruct (truthy g); leaf.
                 intros Htimed _. apply Z.eqb_eq in Hst.
                 pose proof (is_delay_number _
                               (Htimed Hst data ra Hj Hblock Hra)).
                 congruence.
           ++ apply py_get_raises in Hg. destruct e; try discriminate. leaf.
        -- apply subscript_raises in Hra.
           destruct e; try (destruct Hra; discriminate); leaf.
      * destruct ((status r =? 500) || (status r =? 502) || (status r =? 504));
          [leaf|].
        destruct (status r =? 403); [leaf|].
        destruct (status r =? 404); [leaf|].
        destruct (500 <=? status r); leaf.
    + apply json_or_text_raises in Hj. subst e. leaf.
  - rewrite (session_request_failed _ _ _ _ _ _ _ Hnet).
    cbv beta iota.
    destruct ((tries <? 4) && connection_reset errno) eqn:Hc; [|leaf].
    apply andb_true_iff in Hc as [Hlt _]. apply Z.ltb_lt in Hlt. leaf.
Qed.

(** ** The whole loop *)

Lemma quiet_turn_event evs :
  forallb quiet evs = true -> forallb turn_event evs = true.
Proof.
  induction evs as [|e evs IH]; [reflexivity|]. simpl.
  intros Hq. apply andb_true_iff in Hq as [He Hq].
  rewrite (IH Hq), andb_true_r. destruct e; try discriminate; reflexivity.
Qed.

Lemma exchanges_quiet evs : forallb quiet evs = true -> exchanges evs = 0%nat.
Proof.
  induction evs as [|e evs IH]; [reflexivity|]. simpl.
  intros Hq. apply andb_true_iff in Hq as [He Hq].
  destruct e; try discriminate; apply (IH Hq).
Qed.

Lemma exchanges_app evs1 evs2 :
  exchanges (evs1 ++ evs2) = (exchanges evs1 + exchanges evs2)%nat.
Proof. unfold exchanges. rewrite List.filter_app, length_app. reflexivity. Qed.

Lemma sleeps_app evs1 evs2 :
  sleeps (evs1 ++ evs2) = (sleeps evs1 ++ sleeps evs2)%list.
Proof. unfold sleeps. apply flat_map_app. Qed.

Lemma closes_cons tries t rest : closes (tries :: t :: rest) = closes (t :: rest).
Proof. reflexivity. Qed.

(** The loop over any range of turns. *)
Lemma attempts_facts method url hdrs form range :
  forall b last c res c',
    attempts network method url hdrs form b range last c = (res, c') ->
    (exists evs,
       trace c' = (trace c ++ evs)%list
       /\ forallb turn_event evs = true
       /\ exchanges evs = (sent c' - sent c)%nat
       /\ (length (sleeps evs) <= exchanges evs)%nat)
    /\ (sent c <= sent c' <= sent c + length range)%nat
    /\ (range <> [] -> (S (sent c) <= sent c')%nat)
    /\ ((forall i, timed (network i)) ->
        _global_over c = true -> _global_over c' = true)
    /\ (last <> None \/ closes range = true ->
        class_of_result res <> Some CRuntimeError).
Proof.
  induction range as [|tries rest IH]; intros b last c res c' Hrun.
  - assert (Hc : c' = c).
    { simpl in Hrun. unfold raise in Hrun.
      destruct last as [[r d]|]; [destruct (500 <=? status r)|];
        injection Hrun as _ <-; reflexivity. }
    subst c'. split; [|split; [simpl; lia|split; [congruence|split; [auto|]]]].
    + exists []. rewrite app_nil_r, Nat.sub_diag. auto.
    + intros [Hlast|Hclose]; [|discriminate].
      simpl in Hrun. unfold raise in Hrun.
      destruct last as [[r d]|]; [|congruence].
      destruct (500 <=? status r); injection Hrun as <-; discriminate.
  - simpl in Hrun. unfold bind in Hrun.
    destruct (attempt network method url hdrs _ tries last c) as [s c1] eqn:Ha.
    apply attempt_facts in Ha
      as ((evs1 & Ht1 & Hq1 & Hs1) & Hsent1 & Hg1 & Hr1 & Hn1).
    assert (Hone : exists evs,
               trace c1 = (trace c ++ evs)%list
               /\ forallb turn_event evs = true
               /\ exchanges evs = 1%nat
               /\ (length (sleeps evs) <= 1)%nat).
    { eexists. split; [exact Ht1|]. split; [|split].
      - simpl. apply quiet_turn_event, Hq1.
      - change (S (exchanges evs1) = 1%nat). rewrite (exchanges_quiet _ Hq1).
        reflexivity.
      - exact Hs1. }
    destruct Hone as (evs & Htr & Hturn & Hex & Hsl).
    destruct s as [[d|l]|e].
    + injection Hrun as <- <-.
      split; [|split; [simpl; lia|split; [lia|split; [auto|discriminate]]]].
      exists evs. rewrite Hsent1. repeat split; try assumption; lia.
    + apply IH in Hrun
        as ((evs2 & Ht2 & Hq2 & He2 & Hs2) & Hsent2 & _ & Hg2 & Hr2).
      split; [|split; [simpl; lia|split; [lia|split; [auto|]]]].
      * exists (evs ++ evs2)%list. rewrite Ht2, Htr, <- app_assoc.
        split; [reflexivity|]. rewrite forallb_app, Hturn, Hq2.
        split; [reflexivity|].
        rewrite exchanges_app, sleeps_app, length_app. lia.
      * intros Hlast. apply Hr2.
        destruct (Hn1 l eq_refl) as [(r & d & ->)|[-> Hlt]]; [left; discriminate|].
        destruct Hlast as [Hlast|Hclose]; [left; exact Hlast|].
        right. destruct rest as [|t rest]; [|exact Hclose].
        simpl in Hclose. apply Z.leb_le in Hclose. lia.
    + injection Hrun as <- <-.
      split; [|split; [simpl; lia|split; [lia|split; [auto|]]]].
      * exists evs. rewrite Hsent1. repeat split; try assumption; lia.
      * intros _. exact Hr1.
Qed.

(** [request], taken apart: the wait at the gate, the lock, the loop, the
    release. *)
Lemma request_run route form json c res c' :
  request network route form json c = (res, c') ->
  exists c0 c1,
    attempts network (method route) (url route) (request_headers c json) form
      (match json with Some j => JsonBody (json_dumps j) | None => NoBody end)
      range5 None c0 = (res, c1)
    /\ c' = log (EvRelease (bucket route)) c1
    /\ sent c0 = sent c
    /\ _global_over c0 = true
    /\ trace c0 = (trace c ++ (if _global_over c then [] else [EvGateWait])
                           ++ [EvAcquire (bucket route)])%list.
Proof.
  unfold request.
  cbv beta iota zeta delta [bind get with_MaybeUnlock __exit__ emit modify
                            when ret MaybeUnlock_init _unlock lock].
  destruct (_global_over c) eqn:Hg; cbv beta iota delta [negb];
    match goal with
    | |- context [attempts ?n ?m ?u ?h ?f ?b ?r ?l ?c0] =>
        destruct (attempts n m u h f b r l c0) as [res1 c1] eqn:Hrun
    end;
    intros [= <- <-]; do 2 eexists; (split; [exact Hrun|]);
    (split; [reflexivity|]); autorewrite with fields;
    repeat split; try assumption; rewrite <- ?app_assoc; reflexivity.
Qed.

(** Whatever the server does and however the call ends, [request] sends at
    least one request and at most five, and sleeps at most once for each
    request it has sent. *)
Theorem request_sends_one_to_five route form json c :
  let c' := (request network route form json c).2 in
  exists evs,
    trace c' = (trace c ++ evs)%list
    /\ (1 <= exchanges evs <= 5)%nat
    /\ (length (sleeps evs) <= exchanges evs)%nat
    /\ sent c' = (sent c + exchanges evs)%nat.
Proof.
  destruct (request network route form json c) as [res c'] eqn:Hreq. simpl.
  apply request_run in Hreq as (c0 & c1 & Hrun & -> & Hsent & _ & Htrace).
  apply attempts_facts in Hrun
    as ((evs & Ht & _ & Hex & Hsl) & Hbound & Hlow & _).
  specialize (Hlow ltac:(discriminate)). simpl in Hbound.
  exists ((if _global_over c then [] else [EvGateWait])
          ++ [EvAcquire (bucket route)] ++ evs
          ++ [EvRelease (bucket route)])%list.
  autorewrite with fields. rewrite Ht, Htrace, <- !app_assoc.
  split; [reflexivity|].
  assert (Hcount : exchanges
            ((if _global_over c then [] else [EvGateWait])
             ++ [EvAcquire (bucket route)] ++ evs
             ++ [EvRelease (bucket route)]) = exchanges evs).
  { rewrite !exchanges_app.
    change (exchanges [EvAcquire (bucket route)]) with 0%nat.
    change (exchanges [EvRelease (bucket route)]) with 0%nat.
    destruct (_global_over c);
      [change (exchanges []) with 0%nat
      |change (exchanges [EvGateWait]) with 0%nat]; lia. }
  assert (Hsleeps : sleeps
            ((if _global_over c then [] else [EvGateWait])
             ++ [EvAcquire (bucket route)] ++ evs
             ++ [EvRelease (bucket route)]) = sleeps evs).
  { rewrite !sleeps_app.
    change (sleeps [EvAcquire (bucket route)]) with (@nil pyval).
    change (sleeps [EvRelease (bucket route)]) with (@nil pyval).
    destruct (_global_over c);
      [change (sleeps []) with (@nil pyval)
      |change (sleeps [EvGateWait]) with (@nil pyval)];
      cbn [app]; apply app_nil_r. }
  rewrite Hcount, Hsleeps. lia.
Qed.

(** [request] takes the bucket lock once, before it sends anything, and
    gives it back once, as the last thing it does, on every way out: in
    between there are only requests, sleeps and moves of the gate. *)
Theorem request_holds_the_lock route form json c :
  let c' := (request network route form json c).2 in
  exists evs,
    trace c' = (trace c ++ (if _global_over c then [] else [EvGateWait])
                        ++ [EvAcquire (bucket route)] ++ evs
                        ++ [EvRelease (bucket route)])%list
    /\ forallb turn_event evs = true.
Proof.
  destruct (request network route form json c) as [res c'] eqn:Hreq. simpl.
  apply request_run in Hreq as (c0 & c1 & Hrun & -> & Hsent & _ & Htrace).
  apply attempts_facts in Hrun as ((evs & Ht & Hturn & _) & _).
  exists evs. autorewrite with fields. rewrite Ht, Htrace, <- !app_assoc.
  split; [reflexivity|exact Hturn].
Qed.


Lemma attempt_without_delay method url hdrs b tries last c r data retry_after
    is_global :
  network (sent c) = Responded r ->
  status r = 429 ->
  json_or_text r = Ok data ->
  no_via r || is_str data = false ->
  subscript data "retry_after" = Ok retry_after ->
  is_number retry_after = false ->
  py_get data "global" (PBool false) = Ok is_global ->
  attempt network method url hdrs b tries last c
  = (Raise (TypeError ("'<=' not supported between instances of '"
                       +:+ type_name retry_after +:+ "' and 'int'")),
     let c1 := count_exchange (log (EvRequest method url hdrs b) c) in
     if truthy is_global then set_global_over false (log EvGateClear c1)
     else c1).
Proof.
  intros Hnet Hst Hjson Hblock Hretry Hnum Hglobal.
  unfold attempt, try_except, bind.
  rewrite (session_request_responded _ _ _ _ _ _ _ Hnet).
  unfold lift. rewrite Hjson, Hst.
  change ((429 <? 300) && (200 <=? 429)) with false.
  change (429 =? 429) with true. cbv beta iota.
  rewrite Hblock, Hretry, Hglobal. unfold sleep. rewrite Hnum.
  destruct (truthy is_global); reflexivity.
Qed.

(** A rate limit of the service whose [retry_after] is not a number, a
    string or [None] say: [request] raises the [TypeError] of the sleep
    after this one request, without a sleep or another turn, and when the
    rate limit is global the gate, closed before the sleep, is left
    closed. *)
Theorem rate_limit_without_delay route form json c r data retry_after
    is_global :
  network (sent c) = Responded r ->
  status r = 429 ->
  json_or_text r = Ok data ->
  no_via r || is_str data = false ->
  subscript data "retry_after" = Ok retry_after ->
  is_number retry_after = false ->
  py_get data "global" (PBool false) = Ok is_global ->
  exists msg c',
    request network route form json c = (Raise (TypeError msg), c')
    /\ _global_over c' = negb (truthy is_global)
    /\ trace c'
       = (trace c ++ (if _global_over c then [] else [EvGateWait])
            ++ [EvAcquire (bucket route);
                EvRequest (method route) (url route) (request_headers c json)
                  (if form_given form then FormBody (default [] form)
                   else match json with
                        | Some j => JsonBody (json_dumps j)
                        | None => NoBody
                        end)]
            ++ (if truthy is_global then [EvGateClear] else [])
            ++ [EvRelease (bucket route)])%list.
Proof.
  intros Hnet Hst Hjson Hblock Hretry Hnum Hglobal.
  destruct (request network route form json c) as [res c'] eqn:Hreq.
  apply request_run in Hreq as (c0 & c1 & Hrun & -> & Hsent & Hgate & Htrace).
  unfold range5 in Hrun. cbn [attempts] in Hrun. unfold bind in Hrun.
  rewrite <- Hsent in Hnet.
  rewrite (attempt_without_delay _ _ _ _ _ _ _ _ _ _ _
             Hnet Hst Hjson Hblock Hretry Hnum Hglobal) in Hrun.
  cbv zeta in Hrun. injection Hrun as <- <-.
  eexists. eexists. split; [reflexivity|].
  destruct (truthy is_global); autorewrite with fields; rewrite Htrace;
    (split; [auto|]); rewrite <- !app_assoc; reflexivity.
Qed.

(** [request] never ends in the [RuntimeError] that follows its loop: the
    loop is left only with a response in hand. *)
Theorem request_never_unreachable route form json c :
  class_of_result (request network route form json c).1 <> Some CRuntimeError.
Proof.
  destruct (request network route form json c) as [res c'] eqn:Hreq. simpl.
  apply request_run in Hreq as (c0 & c1 & Hrun & _).
  apply attempts_facts in Hrun as (_ & _ & _ & _ & Hr).
  apply Hr. right. reflexivity.
Qed.

(** [request] does not touch the credential, the service metadata or the
    user agent of the client. *)
Theorem request_keeps_login route form json c :
  same_login c (request network route form json c).2.
Proof. apply keeps_request. Qed.

(** ** Transient failures *)

Lemma attempts_sent_body method url hdrs form b range last c :
  attempts network method url hdrs form b range last c
  = attempts network method url hdrs form
      (if form_given form then FormBody (default [] form) else b)
      range last c.
Proof.
  destruct range as [|tries rest]; [reflexivity|]. simpl.
  destruct (form_given form); reflexivity.
Qed.

Lemma attempt_reset method url hdrs b tries last c errno :
  network (sent c) = Failed errno ->
  connection_reset errno = true -> tries < 4 ->
  attempt network method url hdrs b tries last c
  = (Ok (Next last), after_retried method url hdrs b tries c).
Proof.
  intros Hnet Hreset Hlt. unfold attempt, try_except, bind.
  rewrite (session_request_failed _ _ _ _ _ _ _ Hnet). cbv beta iota.
  rewrite Hreset, (proj2 (Z.ltb_lt tries 4) Hlt). reflexivity.
Qed.

Lemma sent_after_retried method url hdrs b tries c :
  sent (after_retried method url hdrs b tries c) = S (sent c).
Proof. reflexivity. Qed.

(** A run of transient failures before the last turn costs one request and
    one sleep each, and the loop goes on. *)
Lemma attempts_transient_prefix method url hdrs form b pre :
  (if form_given form then FormBody (default [] form) else b) = b ->
  forall rest last c,
    Forall (fun tries => tries < 4) pre ->
    (forall i, (i < length pre)%nat -> transient (network (i + sent c))) ->
    exists last',
      attempts network method url hdrs form b (pre ++ rest) last c
      = attempts network method url hdrs form b rest last'
          (after_turns method url hdrs b pre c).
Proof.
  intros Hb. induction pre as [|tries pre IH]; intros rest last c Hlt Hall.
  - exists last. reflexivity.
  - apply Forall_cons in Hlt as [Ht Hlt].
    assert (Hstep : exists l,
               attempt network method url hdrs b tries last c
               = (Ok (Next l), after_retried method url hdrs b tries c)).
    { pose proof (Hall 0%nat ltac:(simpl; lia)) as H0. simpl in H0.
      destruct (network (sent c)) as [r|errno] eqn:Hnet.
      - destruct H0 as [Hst [data Hj]]. eexists.
        apply (attempt_retried _ _ _ _ _ _ _ _ _ _ Hnet Hst Hj).
      - eexists. apply (attempt_reset _ _ _ _ _ _ _ _ Hnet H0 Ht). }
    destruct Hstep as [l Hstep].
    destruct (IH rest l (after_retried method url hdrs b tries c) Hlt)
      as [last' Hrest].
    { intros i Hi. rewrite sent_after_retried.
      replace (i + S (sent c))%nat with (S i + sent c)%nat by lia.
      apply Hall. simpl. lia. }
    exists last'. cbn [app attempts]. rewrite Hb. unfold bind.
    rewrite Hstep. exact Hrest.
Qed.

Lemma trace_after_turns method url hdrs b turns c :
  exists evs,
    trace (after_turns method url hdrs b turns c) = (trace c ++ evs)%list
    /\ sleeps evs = map (fun tries => PInt (1 + tries * 2)) turns
    /\ exchanges evs = length turns
    /\ sent (after_turns method url hdrs b turns c)
       = (length turns + sent c)%nat
    /\ _global_over (after_turns method url hdrs b turns c) = _global_over c.
Proof.
  revert c. induction turns as [|tries turns IH]; intros c.
  - exists []. rewrite app_nil_r. auto.
  - destruct (IH (after_retried method url hdrs b tries c))
      as (evs & Ht & Hs & He & Hn & Hg).
    exists (EvRequest method url hdrs b :: EvSleep (PInt (1 + tries * 2)) :: evs).
    cbn [after_turns]. rewrite Ht, Hn, Hg. unfold after_retried.
    autorewrite with fields. rewrite <- !app_assoc. cbn [app].
    split; [reflexivity|]. split; [cbn [sleeps flat_map app map]; f_equal; exact Hs|].
    split; [change (S (exchanges evs) = S (length turns)); f_equal; exact He|].
    split; [cbn [length]; lia|reflexivity].
Qed.

Lemma firstn_range5_lt n : (n <= 4)%nat -> Forall (fun tries => tries < 4) (firstn n range5).
Proof.
  intros Hn. do 5 (destruct n as [|n]; [repeat constructor; lia|]). lia.
Qed.

Lemma length_firstn_range5 n : (n <= 5)%nat -> length (firstn n range5) = n.
Proof. intros Hn. rewrite length_firstn. simpl. lia. Qed.

(** The state [request] hands to its loop. *)
Lemma request_from route form json c :
  exists c0,
    request network route form json c
    = (let '(res, c1) :=
         attempts network (method route) (url route) (request_headers c json)
           form (sent_body form json) range5 None c0 in
       (res, log (EvRelease (bucket route)) c1))
    /\ sent c0 = sent c
    /\ trace c0 = (trace c ++ (if _global_over c then [] else [EvGateWait])
                           ++ [EvAcquire (bucket route)])%list.
Proof.
  unfold request.
  cbv beta iota zeta delta [bind get with_MaybeUnlock __exit__ emit modify
                            when ret MaybeUnlock_init _unlock lock].
  destruct (_global_over c) eqn:Hg; cbv beta iota delta [negb];
    rewrite attempts_sent_body; fold (sent_body form json);
    eexists; (split; [reflexivity|]); autorewrite with fields;
    split; try reflexivity; rewrite <- ?app_assoc; reflexivity.
Qed.

Lemma sent_body_idem form json :
  (if form_given form then FormBody (default [] form) else sent_body form json)
  = sent_body form json.
Proof. unfold sent_body. destruct (form_given form); reflexivity. Qed.

Lemma attempts_cons method url hdrs form b tries rest last c :
  (if form_given form then FormBody (default [] form) else b) = b ->
  attempts network method url hdrs form b (tries :: rest) last c
  = match attempt network method url hdrs b tries last c with
    | (Ok (Return data), c1) => (Ok data, c1)
    | (Ok (Next l), c1) => attempts network method url hdrs form b rest l c1
    | (Raise e, c1) => (Raise e, c1)
    end.
Proof.
  intros Hb. cbn [attempts]. rewrite Hb. unfold bind.
  destruct (attempt network method url hdrs b tries last c) as [[[d|l]|e] c1];
    reflexivity.
Qed.

Lemma framed_counts (gate : bool) bk evs tail :
  exchanges ((if gate then [] else [EvGateWait])
             ++ EvAcquire bk :: evs ++ tail)
  = (exchanges evs + exchanges tail)%nat
  /\ sleeps ((if gate then [] else [EvGateWait])
             ++ EvAcquire bk :: evs ++ tail)
     = (sleeps evs ++ sleeps tail)%list.
Proof.
  rewrite <- exchanges_app, <- sleeps_app. destruct gate; split; reflexivity.
Qed.

(** After up to four transient failures, server errors of the retried
    statuses and connection resets in any mix, a success is returned: the
    decoded body of the first response with a status from 200 to 299, after
    one sleep of [1 + 2 * tries] seconds for each failure. *)
Theorem request_recovers route form json c n r data :
  (n <= 4)%nat ->
  (forall i, (i < n)%nat -> transient (network (i + sent c))) ->
  network (n + sent c)%nat = Responded r ->
  200 <= status r < 300 ->
  json_or_text r = Ok data ->
  exists c' evs,
    request network route form json c = (Ok data, c')
    /\ trace c' = (trace c ++ evs)%list
    /\ exchanges evs = S n
    /\ sleeps evs = backoff n.
Proof.
  intros Hn Hall Hnet Hst Hj.
  destruct (request_from route form json c) as (c0 & -> & Hsent & Htrace).
  set (m := method route). set (u := url route).
  set (h := request_headers c json). set (b := sent_body form json).
  assert (Hsplit : range5 = (firstn n range5 ++ skipn n range5)%list)
    by (symmetry; apply firstn_skipn).
  rewrite Hsplit.
  destruct (attempts_transient_prefix m u h form b (firstn n range5)
              (sent_body_idem form json) (skipn n range5) None c0
              (firstn_range5_lt n Hn)) as [last' ->].
  { intros i Hi. rewrite length_firstn_range5 in Hi by lia.
    rewrite Hsent. apply Hall, Hi. }
  destruct (trace_after_turns m u h b (firstn n range5) c0)
    as (evs & Ht & Hs & He & Hsn & _).
  rewrite length_firstn_range5 in He, Hsn by lia.
  set (cn := after_turns m u h b (firstn n range5) c0) in *.
  assert (Hskip : exists tries rest, skipn n range5 = tries :: rest).
  { do 5 (destruct n as [|n]; [eexists; eexists; reflexivity|]). lia. }
  destruct Hskip as (tries & rest & ->).
  assert (Hturn : attempt network m u h b tries last' cn
                  = (Ok (Return data),
                     count_exchange (log (EvRequest m u h b) cn))).
  { unfold attempt, try_except, bind.
    rewrite (session_request_responded network m u h b cn r)
      by (rewrite Hsn, Hsent; exact Hnet).
    unfold lift. rewrite Hj.
    rewrite (proj2 (Z.ltb_lt _ _) (proj2 Hst)),
            (proj2 (Z.leb_le _ _) (proj1 Hst)). reflexivity. }
  rewrite attempts_cons by apply sent_body_idem. rewrite Hturn.
  eexists. exists ((if _global_over c then [] else [EvGateWait])
                   ++ [EvAcquire (bucket route)] ++ evs
                   ++ [EvRequest m u h b; EvRelease (bucket route)])%list.
  split; [reflexivity|]. autorewrite with fields.
  rewrite Ht, Htrace, <- !app_assoc. cbn [app].
  split; [reflexivity|].
  destruct (framed_counts (_global_over c) (bucket route) evs
              [EvRequest m u h b; EvRelease (bucket route)]) as [-> ->].
  rewrite He, Hs. unfold backoff.
  change (exchanges [EvRequest m u h b; EvRelease (bucket route)]) with 1%nat.
  change (sleeps [EvRequest m u h b; EvRelease (bucket route)])
    with (@nil pyval).
  rewrite app_nil_r. split; [lia|reflexivity].
Qed.

(** When the fifth request fails with an [OSError] after four transient
    failures, that error is raised, connection reset or not, after the four
    sleeps of 1, 3, 5 and 7 seconds and none more. *)
Theorem request_gives_up_on_OSError route form json c errno :
  (forall i, (i < 4)%nat -> transient (network (i + sent c))) ->
  network (4 + sent c)%nat = Failed errno ->
  exists c' evs,
    request network route form json c = (Raise (OSError errno), c')
    /\ trace c' = (trace c ++ evs)%list
    /\ exchanges evs = 5%nat
    /\ sleeps evs = [PInt 1; PInt 3; PInt 5; PInt 7].
Proof.
  intros Hall Hnet.
  destruct (request_from route form json c) as (c0 & -> & Hsent & Htrace).
  set (m := method route). set (u := url route).
  set (h := request_headers c json). set (b := sent_body form json).
  change range5 with ([0; 1; 2; 3] ++ [4])%list.
  destruct (attempts_transient_prefix m u h form b [0; 1; 2; 3]
              (sent_body_idem form json) [4] None c0)
    as [last' ->].
  { repeat constructor; lia. }
  { intros i Hi. rewrite Hsent. apply Hall, Hi. }
  destruct (trace_after_turns m u h b [0; 1; 2; 3] c0)
    as (evs & Ht & Hs & He & Hsn & _).
  set (cn := after_turns m u h b [0; 1; 2; 3] c0) in *.
  assert (Hturn : attempt network m u h b 4 last' cn
                  = (Raise (OSError errno),
                     count_exchange (log (EvRequest m u h b) cn))).
  { unfold attempt, try_except, bind.
    rewrite (session_request_failed network m u h b cn errno)
      by (rewrite Hsn, Hsent; exact Hnet).
    reflexivity. }
  rewrite attempts_cons by apply sent_body_idem. rewrite Hturn.
  eexists. exists ((if _global_over c then [] else [EvGateWait])
                   ++ [EvAcquire (bucket route)] ++ evs
                   ++ [EvRequest m u h b; EvRelease (bucket route)])%list.
  split; [reflexivity|]. autorewrite with fields.
  rewrite Ht, Htrace, <- !app_assoc. cbn [app].
  split; [reflexivity|].
  destruct (framed_counts (_global_over c) (bucket route) evs
              [EvRequest m u h b; EvRelease (bucket route)]) as [-> ->].
  rewrite He, Hs.
  change (exchanges [EvRequest m u h b; EvRelease (bucket route)]) with 1%nat.
  change (sleeps [EvRequest m u h b; EvRelease (bucket route)])
    with (@nil pyval).
  rewrite app_nil_r. split; reflexivity.
Qed.

(** ** Errors that end the call at once *)

(** A turn whose request fails with an [OSError] that is not a connection
    reset raises it at once: nothing is slept and no later turn runs. *)
Theorem OSError_raised_at_once method url hdrs form b tries rest last c errno :
  network (sent c) = Failed errno ->
  connection_reset errno = false ->
  attempts network method url hdrs form b (tries :: rest) last c
  = (Raise (OSError errno),
     count_exchange
       (log (EvRequest method url hdrs
               (if form_given form then FormBody (default [] form) else b))
            c)).
Proof.
  intros Hnet Hreset. cbn [attempts]. cbv zeta.
  unfold attempt, try_except, bind.
  rewrite (session_request_failed _ _ _ _ _ _ _ Hnet). cbv beta iota.
  rewrite Hreset, andb_false_r. reflexivity.
Qed.

(** A turn answered with a status that is neither a success, nor 429, nor
    500, 502 or 504 raises at once, without a sleep or another turn:
    [Forbidden] for 403, [NotFound] for 404, [RevoltServerError] for any
    other status from 500 on, [HTTPException] for the rest. *)
Theorem error_raised_at_once method url hdrs form b tries rest last c r data :
  network (sent c) = Responded r ->
  json_or_text r = Ok data ->
  let c1 :=
    count_exchange
      (log (EvRequest method url hdrs
              (if form_given form then FormBody (default [] form) else b))
           c) in
  (status r = 403 ->
     attempts network method url hdrs form b (tries :: rest) last c
     = (Raise (Forbidden r data), c1))
  /\ (status r = 404 ->
      attempts network method url hdrs form b (tries :: rest) last c
      = (Raise (NotFound r data), c1))
  /\ (500 <= status r -> ~ retried (status r) ->
      attempts network method url hdrs form b (tries :: rest) last c
      = (Raise (RevoltServerError r data), c1))
  /\ (status r < 200 \/ 300 <= status r < 500 ->
      status r <> 403 -> status r <> 404 -> status r <> 429 ->
      attempts network method url hdrs form b (tries :: rest) last c
      = (Raise (HTTPException r data), c1)).
Proof.
  intros Hnet Hj c1.
  assert (Hrun : ~ (200 <= status r < 300) -> status r <> 429 ->
                 ~ retried (status r) ->
                 attempts network method url hdrs form b (tries :: rest) last c
                 = (Raise (error_of r data), c1)).
  { intros H2 H429 Hre. cbn [attempts]. cbv zeta.
    unfold attempt, try_except, bind.
    rewrite (session_request_responded _ _ _ _ _ _ _ Hnet). unfold lift.
    rewrite Hj. unfold error_of, retried in *.
    destruct (Z.ltb_spec (status r) 300), (Z.leb_spec 200 (status r));
      cbn [andb]; try lia;
      destruct (Z.eqb_spec (status r) 429); try lia;
      destruct (Z.eqb_spec (status r) 500); try lia;
      destruct (Z.eqb_spec (status r) 502); try lia;
      destruct (Z.eqb_spec (status r) 504); try lia;
      cbn [orb];
      destruct (Z.eqb_spec (status r) 403);
      destruct (Z.eqb_spec (status r) 404);
      destruct (Z.leb_spec 500 (status r)); reflexivity. }
  unfold error_of, retried in Hrun. repeat split.
  - intros Hs. rewrite Hrun by lia. rewrite Hs. reflexivity.
  - intros Hs. rewrite Hrun by lia. rewrite Hs. reflexivity.
  - intros Hs Hre. rewrite Hrun by (unfold retried in Hre; lia).
    destruct (Z.eqb_spec (status r) 403); [lia|].
    destruct (Z.eqb_spec (status r) 404); [lia|].
    destruct (Z.leb_spec 500 (status r)); [reflexivity|lia].
  - intros Hs H403 H404 H429. rewrite Hrun by lia.
    destruct (Z.eqb_spec (status r) 403); [lia|].
    destruct (Z.eqb_spec (status r) 404); [lia|].
    destruct (Z.leb_spec 500 (status r)); [lia|reflexivity].
Qed.

(** ** Headers *)

(** The headers of a request: the user agent always, the credential under
    [x-<type>-token] when one is installed, and the JSON content type
    exactly when a JSON body is sent. *)
Theorem request_headers_spec c json :
  alist_get "User-Agent" (request_headers c json) = Some (user_agent c)
  /\ (forall t, token c = Some t ->
        alist_get ("x-" +:+ type t +:+ "-token") (request_headers c json)
        = Some (value t))
  /\ alist_get "Content-Type" (request_headers c json)
     = match json with Some _ => Some "application/json" | None => None end
  /\ (token c = None ->
      forall k, k <> "User-Agent" -> k <> "Content-Type" ->
                alist_get k (request_headers c json) = None).
Proof.
  unfold request_headers. repeat split.
  - destruct (token c), json; rewrite ?alist_get_set; reflexivity.
  - intros t ->. destruct json; rewrite !alist_get_set; simpl;
      rewrite String.eqb_refl; reflexivity.
  - destruct (token c), json; rewrite ?alist_get_set; reflexivity.
  - intros -> k Hua Hct. destruct json; rewrite ?alist_get_set; simpl;
      destruct (String.eqb_spec k "Content-Type");
      destruct (String.eqb_spec k "User-Agent"); congruence.
Qed.

(** ** Uploads *)

(** Without the address of the file host in the service metadata, as before
    a login, [upload_file] fails with the error of the lookup and sends
    nothing. *)
Theorem upload_needs_the_file_host file tag c e :
  rbind (rbind (subscript (api_info c) "features")
               (fun features => subscript features "autumn"))
        (fun autumn => subscript autumn "url") = Raise e ->
  upload_file network file tag c = (Raise e, c).
Proof.
  unfold upload_file, bind, get, lift.
  destruct (subscript (api_info c) "features") as [features|e1]; simpl;
    [|intros [= <-]; reflexivity].
  destruct (subscript features "autumn") as [autumn|e2]; simpl;
    [|intros [= <-]; reflexivity].
  destruct (subscript autumn "url") as [base|e3]; simpl;
    [discriminate|intros [= <-]; reflexivity].
Qed.

(** With the address of the file host known and a body that decodes,
    [upload_file] makes one POST and nothing else, and answers by the status
    alone: [HTTPException] for 400, [RevoltServerError] from 500 to 600, both
    ends included, and the decoded body for every other status, 403, 404
    and 429 among them. *)
Theorem upload_file_by_status file tag c features autumn base r data :
  subscript (api_info c) "features" = Ok features ->
  subscript features "autumn" = Ok autumn ->
  subscript autumn "url" = Ok base ->
  network (sent c) = Responded r ->
  json_or_text r = Ok data ->
  let c' := count_exchange (log (upload_event c base file tag) c) in
  (status r = 400 ->
   upload_file network file tag c = (Raise (HTTPException r data), c'))
  /\ (500 <= status r <= 600 ->
      upload_file network file tag c = (Raise (RevoltServerError r data), c'))
  /\ (status r <> 400 -> status r < 500 \/ 600 < status r ->
      upload_file network file tag c = (Ok data, c')).
Proof.
  intros Hf Ha Hu Hnet Hj c'.
  rewrite (upload_file_spec network file tag c features autumn base r data
             Hf Ha Hu Hnet Hj).
  fold c'. repeat split.
  - intros ->. reflexivity.
  - intros Hs. destruct (Z.eqb_spec (status r) 400); [lia|].
    destruct (Z.leb_spec 500 (status r)), (Z.leb_spec (status r) 600);
      try lia. reflexivity.
  - intros H400 Hs. destruct (Z.eqb_spec (status r) 400); [contradiction|].
    destruct (Z.leb_spec 500 (status r)), (Z.leb_spec (status r) 600);
      try lia; reflexivity.
Qed.

(** ** Login *)

(** A login whose two requests succeed installs the credential, stores the
    service metadata and returns the user record. *)
Theorem static_login_success tok c info c1 user c3 :
  get_api_info network c = (Ok info, c1) ->
  fetch_self network (set_token (Some tok) (set_api_info info c1))
  = (Ok user, c3) ->
  static_login network tok c = (Ok user, c3)
  /\ token c3 = Some tok
  /\ api_info c3 = info.
Proof.
  intros Hinfo Hself.
  pose proof (keeps_fetch_self network
                (set_token (Some tok) (set_api_info info c1))) as Hk.
  rewrite Hself in Hk. destruct Hk as (Htok & Hinf & _).
  unfold static_login, bind, try_except, modify, get. rewrite Hinfo. simpl.
  rewrite Hself. auto.
Qed.

(** A login whose request for the service metadata fails lets that error
    through, whatever it is, and leaves the client with the credential and
    the metadata it had: the new credential is never installed. *)
Theorem static_login_metadata_failure tok c e c1 :
  get_api_info network c = (Raise e, c1) ->
  static_login network tok c = (Raise e, c1)
  /\ token c1 = token c
  /\ api_info c1 = api_info c.
Proof.
  intros Hinfo. pose proof (keeps_get_api_info network c) as Hk.
  rewrite Hinfo in Hk. destruct Hk as (Htok & Hinf & _).
  unfold static_login, bind. rewrite Hinfo. auto.
Qed.

(** ** Buckets *)

(** Two routes with the same path template, channel id and server id have
    the same bucket key, whatever their methods and their other
    parameters. *)
Theorem bucket_ignores_method method1 method2 path ps1 ps2 r1 r2 :
  Route_init method1 path ps1 = Ok r1 ->
  Route_init method2 path ps2 = Ok r2 ->
  alist_get "channel_id" ps1 = alist_get "channel_id" ps2 ->
  alist_get "server_id" ps1 = alist_get "server_id" ps2 ->
  bucket r1 = bucket r2.
Proof.
  unfold Route_init. intros H1 H2 Hc Hs.
  destruct (match ps1 with [] => _ | _ => _ end) as [u1|]; simpl in H1;
    [|discriminate].
  destruct (match ps2 with [] => _ | _ => _ end) as [u2|]; simpl in H2;
    [|discriminate].
  injection H1 as <-. injection H2 as <-.
  unfold bucket, parameters_get. simpl. rewrite Hc, Hs. reflexivity.
Qed.

(** ** Payloads *)

Lemma upload_file_sent file tag c data c' :
  upload_file network file tag c = (Ok data, c') -> sent c' = S (sent c).
Proof.
  unfold upload_file, bind, get, lift.
  destruct (subscript (api_info c) "features") as [features|]; [|discriminate].
  destruct (subscript features "autumn") as [autumn|]; [|discriminate].
  destruct (subscript autumn "url") as [base|]; [|discriminate].
  destruct (network (sent c)) as [r|errno] eqn:Hnet.
  - rewrite (session_request_responded _ _ _ _ _ _ _ Hnet).
    destruct (json_or_text r); [|discriminate].
    destruct (status r =? 400); [discriminate|].
    destruct ((500 <=? status r) && (status r <=? 600)); [discriminate|].
    intros [= _ <-]. reflexivity.
  - rewrite (session_request_failed _ _ _ _ _ _ _ Hnet). discriminate.
Qed.

Lemma upload_each_sent files ids c ids' c' :
  upload_each network files ids c = (Ok ids', c') ->
  sent c' = (sent c + length files)%nat.
Proof.
  revert ids c. induction files as [|f files IH]; simpl; intros ids c Hup.
  - injection Hup as _ <-. lia.
  - apply bind_ok in Hup as (data & c1 & Hf & Hup).
    apply bind_ok in Hup as (id & c2 & Hid & Hup).
    unfold lift in Hid. injection Hid as _ <-.
    apply upload_file_sent in Hf. apply IH in Hup. lia.
Qed.

(** When [send_message] gets as far as its request, it has uploaded every
    file it was given: the single [attachment] too when [attachments] is
    given beside it, although only the ids of the latter are sent. *)
Theorem send_message_uploads_every_file content embed embeds attachment
    attachments replie replies masquerade c payload c' :
  send_message_payload network content embed embeds attachment attachments
    replie replies masquerade c = (Ok payload, c') ->
  sent c' = (sent c + match attachment with Some _ => 1 | None => 0 end
             + length (default [] attachments))%nat.
Proof.
  unfold send_message_payload. intros Hp.
  apply bind_ok in Hp as (p1 & c1 & H1 & Hp).
  apply bind_ok in Hp as (p2 & c2 & H2 & Hp).
  unfold ret in Hp. injection Hp as _ <-.
  assert (E1 : sent c1 = (sent c + match attachment with Some _ => 1 | None => 0 end)%nat).
  { destruct attachment as [f|]; [|injection H1 as _ <-; lia].
    apply bind_ok in H1 as (data & c3 & Hf & H1).
    apply bind_ok in H1 as (id & c4 & Hid & H1).
    unfold lift in Hid. injection Hid as _ <-. injection H1 as _ <-.
    apply upload_file_sent in Hf. lia. }
  destruct attachments as [[|f fs]|]; try (injection H2 as _ <-; simpl; lia).
  apply bind_ok in H2 as (ids & c3 & Hup & H2). injection H2 as _ <-.
  apply upload_each_sent in Hup. simpl in *. lia.
Qed.

(** The optional fields of a message are sent only when they are truthy:
    an empty [content] or [masquerade] is left out of the payload, and so
    are [embeds], [replies] and [attachments] when neither their single nor
    their list form is given. *)
Theorem send_message_leaves_out_falsy content embed embeds attachment
    attachments replie replies masquerade c payload c' :
  send_message_payload network content embed embeds attachment attachments
    replie replies masquerade c = (Ok payload, c') ->
  alist_get "content" payload
  = (if truthy content then Some content else None)
  /\ alist_get "masquerade" payload
     = (if truthy masquerade then Some masquerade else None)
  /\ (truthy embed = false -> truthy embeds = false ->
      alist_get "embeds" payload = None)
  /\ (truthy replie = false -> truthy replies = false ->
      alist_get "replies" payload = None)
  /\ (attachment = None -> attachments = None \/ attachments = Some [] ->
      alist_get "attachments" payload = None
      /\ c' = c).
Proof.
  unfold send_message_payload. intros Hp.
  apply bind_ok in Hp as (p1 & c1 & H1 & Hp).
  apply bind_ok in Hp as (p2 & c2 & H2 & Hp).
  unfold ret in Hp. injection Hp as <- <-.
  set (p0 := if truthy embeds then _ else _) in *.
  assert (Hkeep : forall k, k <> "attachments" ->
                            alist_get k p2 = alist_get k p0).
  { intros k Hk.
    assert (E1 : alist_get k p1 = alist_get k p0).
    { destruct attachment as [f|]; [|injection H1 as <- _; reflexivity].
      apply bind_ok in H1 as (data & c3 & _ & H1).
      apply bind_ok in H1 as (id & c4 & _ & H1).
      injection H1 as <- _. rewrite alist_get_set.
      destruct (String.eqb_spec k "attachments"); [contradiction|reflexivity]. }
    rewrite <- E1.
    destruct attachments as [[|f fs]|]; try (injection H2 as <- _; reflexivity).
    apply bind_ok in H2 as (ids & c3 & _ & H2).
    injection H2 as <- _. rewrite alist_get_set.
    destruct (String.eqb_spec k "attachments"); [contradiction|reflexivity]. }
  split; [|split; [|split; [|split]]].
  - destruct (truthy masquerade), (truthy replies), (truthy replie);
      rewrite ?alist_get_set; simpl; rewrite Hkeep by discriminate; subst p0;
      destruct (truthy embeds), (truthy embed), (truthy content);
      rewrite ?alist_get_set; reflexivity.
  - destruct (truthy masquerade); rewrite ?alist_get_set; simpl; [reflexivity|].
    destruct (truthy replies), (truthy replie);
      rewrite ?alist_get_set; simpl; rewrite Hkeep by discriminate; subst p0;
      destruct (truthy embeds), (truthy embed), (truthy content);
      rewrite ?alist_get_set; reflexivity.
  - intros He He'.
    destruct (truthy masquerade), (truthy replies), (truthy replie);
      rewrite ?alist_get_set; simpl; rewrite Hkeep by discriminate; subst p0;
      rewrite He, He'; destruct (truthy content);
      rewrite ?alist_get_set; reflexivity.
  - intros Hr Hr'. rewrite Hr, Hr'.
    destruct (truthy masquerade); rewrite ?alist_get_set; simpl;
      rewrite Hkeep by discriminate; subst p0;
      destruct (truthy embeds), (truthy embed), (truthy content);
      rewrite ?alist_get_set; reflexivity.
  - intros -> Hnone. injection H1 as <- <-.
    assert (E2 : p2 = p0 /\ c2 = c)
      by (destruct Hnone as [->| ->]; injection H2 as <- <-; auto).
    destruct E2 as [-> ->]. split; [|reflexivity].
    destruct (truthy masquerade), (truthy replies), (truthy replie);
      rewrite ?alist_get_set; simpl; subst p0;
      destruct (truthy embeds), (truthy embed), (truthy content);
      rewrite ?alist_get_set; reflexivity.
Qed.

(** The query of [fetch_messages] always carries [sort] and
    [include_users], the latter as the text [True] or [False]; [limit],
    [before], [after] and [nearby] are sent only when they are truthy, so a
    limit of 0 or an empty id is not sent. *)
Theorem fetch_messages_payload_spec sort_value limit before after nearby
    include_users :
  let payload := fetch_messages_payload sort_value limit before after nearby
                   include_users in
  alist_get "sort" payload = Some sort_value
  /\ alist_get "include_users" payload
     = Some (PStr (if include_users then "True" else "False"))
  /\ alist_get "limit" payload = (if truthy limit then Some limit else None)
  /\ alist_get "before" payload = (if truthy before then Some before else None)
  /\ alist_get "after" payload = (if truthy after then Some after else None)
  /\ alist_get "nearby" payload = (if truthy nearby then Some nearby else None).
Proof.
  unfold fetch_messages_payload.
  destruct (truthy limit), (truthy before), (truthy after), (truthy nearby);
    repeat split; rewrite ?alist_get_set; reflexivity.
Qed.

(** The body of [edit_message]: [content] when it is truthy, and under
    [embeds] the list [embeds] when it is truthy, else the one-element list
    of a truthy [embed], else nothing. *)
Theorem edit_message_payload_spec content embed embeds :
  let payload := edit_message_payload content embed embeds in
  alist_get "content" payload = (if truthy content then Some content else None)
  /\ alist_get "embeds" payload
     = (if truthy embeds then Some embeds
        else if truthy embed then Some (PList [embed]) else None)
  /\ forall k, k <> "content" -> k <> "embeds" -> alist_get k payload = None.
Proof.
  unfold edit_message_payload.
  destruct (truthy content), (truthy embed), (truthy embeds);
    repeat split; rewrite ?alist_get_set; try reflexivity;
    intros k Hc He; rewrite ?alist_get_set; simpl;
    destruct (String.eqb_spec k "embeds"); try contradiction;
    destruct (String.eqb_spec k "content"); try contradiction; reflexivity.
Qed.

End Dispatch.

Section Runs.
Import Demo.


Lemma rate_limit_without_delay_witness :
  exists msg c',
    request (script [rate_limit_soon]) root None None fresh
    = (Raise (TypeError msg), c')
    /\ _global_over c' = false
    /\ trace c'
       = [EvAcquire (bucket root);
          EvRequest "GET" (url root) [("User-Agent", "Pyvolt")] NoBody;
          EvGateClear;
          EvRelease (bucket root)].
Proof.
  refine (rate_limit_without_delay (script [rate_limit_soon]) root None None
            fresh rate_limit_soon
            (PDict [("retry_after", PStr "soon"); ("global", PBool true)])
            (PStr "soon") (PBool true) _ _ _ _ _ _ _); reflexivity.
Defined.

Lemma request_recovers_witness :
  exists c' evs,
    request (reset_then 2 (Responded (json_response 200 "{'id': 'a'}")))
      root None None fresh
    = (Ok (PDict [("id", PStr "a")]), c')
    /\ trace c' = (trace fresh ++ evs)%list
    /\ exchanges evs = 3%nat
    /\ sleeps evs = backoff 2.
Proof.
  refine (request_recovers
            (reset_then 2 (Responded (json_response 200 "{'id': 'a'}")))
            root None None fresh 2 (json_response 200 "{'id': 'a'}")
            (PDict [("id", PStr "a")]) _ _ _ _ _).
  - lia.
  - intros i Hi. destruct i as [|[|i]]; [reflexivity|reflexivity|lia].
  - reflexivity.
  - simpl; lia.
  - reflexivity.
Defined.

Lemma request_gives_up_on_OSError_witness :
  exists c' evs,
    request (reset_then 5 (Responded (json_response 200 "{}")))
      root None None fresh
    = (Raise (OSError (Some 54)), c')
    /\ trace c' = (trace fresh ++ evs)%list
    /\ exchanges evs = 5%nat
    /\ sleeps evs = [PInt 1; PInt 3; PInt 5; PInt 7].
Proof.
  refine (request_gives_up_on_OSError
            (reset_then 5 (Responded (json_response 200 "{}")))
            root None None fresh (Some 54) _ _).
  - intros i Hi. destruct i as [|[|[|[|i]]]]; try reflexivity. lia.
  - reflexivity.
Defined.

Lemma OSError_raised_at_once_witness :
  attempts refusing "GET" (url root) [("User-Agent", "Pyvolt")] None NoBody
    [0; 1; 2; 3; 4] None fresh
  = (Raise (OSError (Some 111)),
     count_exchange
       (log (EvRequest "GET" (url root) [("User-Agent", "Pyvolt")] NoBody)
            fresh)).
Proof.
  refine (OSError_raised_at_once refusing "GET" (url root)
            [("User-Agent", "Pyvolt")] None NoBody 0 [1; 2; 3; 4] None fresh
            (Some 111) _ _); reflexivity.
Defined.

Lemma error_raised_at_once_witness :
  attempts (script [text_response 403 "Forbidden"]) "GET" (url root)
    [("User-Agent", "Pyvolt")] None NoBody [0; 1; 2; 3; 4] None fresh
  = (Raise (Forbidden (text_response 403 "Forbidden") (PStr "Forbidden")),
     count_exchange
       (log (EvRequest "GET" (url root) [("User-Agent", "Pyvolt")] NoBody)
            fresh))
  /\ attempts (script [text_response 404 "Not Found"]) "GET" (url root)
       [("User-Agent", "Pyvolt")] None NoBody [0; 1; 2; 3; 4] None fresh
     = (Raise (NotFound (text_response 404 "Not Found") (PStr "Not Found")),
        count_exchange
          (log (EvRequest "GET" (url root) [("User-Agent", "Pyvolt")] NoBody)
               fresh))
  /\ attempts (script [text_response 501 "Not Implemented"]) "GET" (url root)
       [("User-Agent", "Pyvolt")] None NoBody [0; 1; 2; 3; 4] None fresh
     = (Raise (RevoltServerError (text_response 501 "Not Implemented")
                 (PStr "Not Implemented")),
        count_exchange
          (log (EvRequest "GET" (url root) [("User-Agent", "Pyvolt")] NoBody)
               fresh))
  /\ attempts (script [text_response 400 "Bad Request"]) "GET" (url root)
       [("User-Agent", "Pyvolt")] None NoBody [0; 1; 2; 3; 4] None fresh
     = (Raise (HTTPException (text_response 400 "Bad Request")
                 (PStr "Bad Request")),
        count_exchange
          (log (EvRequest "GET" (url root) [("User-Agent", "Pyvolt")] NoBody)
               fresh)).
Proof.
  split; [|split; [|split]].
  - refine (proj1 (error_raised_at_once
                     (script [text_response 403 "Forbidden"]) "GET" (url root)
                     [("User-Agent", "Pyvolt")] None NoBody 0 [1; 2; 3; 4]
                     None fresh (text_response 403 "Forbidden")
                     (PStr "Forbidden") _ _) _); reflexivity.
  - refine (proj1 (proj2 (error_raised_at_once
                     (script [text_response 404 "Not Found"]) "GET" (url root)
                     [("User-Agent", "Pyvolt")] None NoBody 0 [1; 2; 3; 4]
                     None fresh (text_response 404 "Not Found")
                     (PStr "Not Found") _ _)) _); reflexivity.
  - refine (proj1 (proj2 (proj2 (error_raised_at_once
                     (script [text_response 501 "Not Implemented"]) "GET"
                     (url root)
                     [("User-Agent", "Pyvolt")] None NoBody 0 [1; 2; 3; 4]
                     None fresh (text_response 501 "Not Implemented")
                     (PStr "Not Implemented") _ _))) _ _);
      [reflexivity|reflexivity|simpl; lia|].
    unfold retried; simpl; intros [?|[?|?]]; discriminate.
  - refine (proj2 (proj2 (proj2 (error_raised_at_once
                     (script [text_response 400 "Bad Request"]) "GET"
                     (url root)
                     [("User-Agent", "Pyvolt")] None NoBody 0 [1; 2; 3; 4]
                     None fresh (text_response 400 "Bad Request")
                     (PStr "Bad Request") _ _))) _ _ _ _);
      [reflexivity|reflexivity|simpl; lia|simpl; lia..].
Defined.

Lemma request_headers_spec_witness :
  alist_get "x-bot-token"
    (request_headers logged_in (Some (PDict []))) = Some "old"
  /\ alist_get "x-bot-token" (request_headers fresh None) = None.
Proof.
  split.
  - refine (proj1 (proj2 (request_headers_spec logged_in (Some (PDict []))))
              old_token _). reflexivity.
  - refine (proj2 (proj2 (proj2 (request_headers_spec fresh None)))
              _ "x-bot-token" _ _); [reflexivity|discriminate|discriminate].
Defined.

Lemma upload_needs_the_file_host_witness :
  upload_file (file_host ["a"]) (picture "cat.png") "attachments" returning
  = (Raise (TypeError "object is not subscriptable"), returning).
Proof.
  refine (upload_needs_the_file_host (file_host ["a"]) (picture "cat.png")
            "attachments" returning _ _).
  reflexivity.
Defined.

Lemma upload_file_by_status_witness :
  upload_file (script [text_response 600 "never"]) (picture "cat.png")
    "attachments" logged_in
  = (Raise (RevoltServerError (text_response 600 "never") (PStr "never")),
     count_exchange
       (log (upload_event logged_in (PStr "https://autumn.revolt.chat")
               (picture "cat.png") "attachments")
            logged_in))
  /\ upload_file (script [text_response 404 "Not Found"]) (picture "cat.png")
       "attachments" logged_in
     = (Ok (PStr "Not Found"),
        count_exchange
          (log (upload_event logged_in (PStr "https://autumn.revolt.chat")
                  (picture "cat.png") "attachments")
               logged_in)).
Proof.
  split.
  - refine (proj1 (proj2 (upload_file_by_status
                     (script [text_response 600 "never"]) (picture "cat.png")
                     "attachments" logged_in _ _
                     (PStr "https://autumn.revolt.chat")
                     (text_response 600 "never") (PStr "never") _ _ _ _ _)) _);
      [reflexivity..|simpl; lia].
  - refine (proj2 (proj2 (upload_file_by_status
                     (script [text_response 404 "Not Found"])
                     (picture "cat.png")
                     "attachments" logged_in _ _
                     (PStr "https://autumn.revolt.chat")
                     (text_response 404 "Not Found") (PStr "Not Found")
                     _ _ _ _ _)) _ _);
      [reflexivity..|simpl; lia|simpl; lia].
Defined.

Lemma static_login_success_witness :
  exists c3,
    static_login welcoming new_token returning
    = (Ok (PDict [("_id", PStr "U")]), c3)
    /\ token c3 = Some new_token
    /\ api_info c3
       = PDict [("features",
                 PDict [("autumn",
                         PDict [("url", PStr "https://autumn.revolt.chat")])])].
Proof.
  eexists.
  eapply (static_login_success welcoming new_token returning);
    vm_compute; reflexivity.
Defined.

Lemma static_login_metadata_failure_witness :
  exists c1,
    static_login refusing new_token returning
    = (Raise (OSError (Some 111)), c1)
    /\ token c1 = Some old_token
    /\ api_info c1 = PNone.
Proof.
  eexists.
  eapply (static_login_metadata_failure refusing new_token returning).
  vm_compute; reflexivity.
Defined.

Lemma bucket_ignores_method_witness :
  exists r1 r2,
    Route_init "DELETE" "/channels/{channel_id}/messages/{message_id}"
      [("channel_id", PStr "C"); ("message_id", PStr "M1")] = Ok r1
    /\ Route_init "GET" "/channels/{channel_id}/messages/{message_id}"
         [("channel_id", PStr "C"); ("message_id", PStr "M2")] = Ok r2
    /\ url r1 <> url r2
    /\ bucket r1 = bucket r2.
Proof.
  eexists. eexists.
  split; [vm_compute; reflexivity|]. split; [vm_compute; reflexivity|].
  split; [discriminate|].
  eapply (bucket_ignores_method "DELETE" "GET"
            "/channels/{channel_id}/messages/{message_id}"
            [("channel_id", PStr "C"); ("message_id", PStr "M1")]
            [("channel_id", PStr "C"); ("message_id", PStr "M2")]);
    [vm_compute; reflexivity | vm_compute; reflexivity
    | reflexivity | reflexivity].
Defined.

Lemma send_message_uploads_every_file_witness :
  exists payload c',
    send_message_payload (file_host ["a"; "b"; "c"]) (PStr "hi") PNone PNone
      (Some (picture "one.png"))
      (Some [picture "two.png"; picture "three.png"]) PNone PNone PNone
      logged_in = (Ok payload, c')
    /\ sent c' = 3%nat.
Proof.
  eexists. eexists. split; [vm_compute; reflexivity|].
  refine (send_message_uploads_every_file (file_host ["a"; "b"; "c"])
            (PStr "hi") PNone PNone (Some (picture "one.png"))
            (Some [picture "two.png"; picture "three.png"]) PNone PNone PNone
            logged_in _ _ _).
  vm_compute; reflexivity.
Defined.

Lemma send_message_leaves_out_falsy_witness :
  exists payload,
    send_message_payload refusing (PStr "") PNone (PList []) None (Some [])
      PNone PNone (PDict []) fresh = (Ok payload, fresh)
    /\ alist_get "content" payload = None
    /\ alist_get "masquerade" payload = None
    /\ alist_get "embeds" payload = None
    /\ alist_get "replies" payload = None
    /\ alist_get "attachments" payload = None.
Proof.
  exists [].
  split; [reflexivity|].
  destruct (send_message_leaves_out_falsy refusing (PStr "") PNone (PList [])
              None (Some []) PNone PNone (PDict []) fresh [] fresh eq_refl)
    as (Hc & Hm & He & Hr & Ha).
  split; [exact Hc|]. split; [exact Hm|].
  split; [exact (He eq_refl eq_refl)|].
  split; [exact (Hr eq_refl eq_refl)|].
  exact (proj1 (Ha eq_refl (or_intror eq_refl))).
Defined.

End Runs.
End HttpMore.
